(** * Time Zone Meeting Planner: the resolver and the overlap calculator

    A shallow embedding of [marcel_streamlit.py]: [load_country_data],
    [get_timezone] and [find_best_talk_time], together with the parts of
    pandas, [re], [eval], [datetime] and pytz that these functions call.

    Conventions.
    - A Python [str] is a Rocq [string]; its characters are read as the code
      points U+0000..U+00FF.
    - A Python [int] is a [Z].
    - A call either returns, raises, or leaves the fragment of the
      libraries that is modelled here ([OutOfModel]); see [outcome]. *)

From Stdlib Require Import ZArith List Bool Ascii String Lia Permutation.
Import ListNotations.

Local Open Scope string_scope.
Local Open Scope Z_scope.

(* ================================================================== *)
(** ** Exceptions and outcomes *)

Inductive exception : Type :=
| ValueError (msg : string)
| KeyError (key : string)
| TypeError
| IndexError
| FileNotFoundError
| UnknownTimeZoneError (zone : string)
| AttributeError
| OverflowError.

(** [OutOfModel] marks an input on which the libraries do something this
    development does not describe (a regular-expression operator other
    than [.], a [timezones] cell that is not a plain list display of
    string literals), or a state the page cannot be in (a number widget
    holding a number outside its bounds).  Nothing is asserted about the
    program there. *)
Inductive outcome (A : Type) : Type :=
| Return (a : A)
| Raise (e : exception)
| OutOfModel.

Arguments Return {A} a.
Arguments Raise {A} e.
Arguments OutOfModel {A}.

Definition bind {A B : Type} (m : outcome A) (k : A -> outcome B) : outcome B :=
  match m with
  | Return a => k a
  | Raise e => Raise e
  | OutOfModel => OutOfModel
  end.

Notation "x <- m ;; k" := (bind m (fun x => k))
  (at level 61, m at next level, right associativity).

(* ================================================================== *)
(** ** Strings: case folding and the regular expressions of [str.contains] *)

Module Re.

(** [_sre.unicode_tolower] on U+0000..U+00FF: A-Z and the Latin-1
    capitals U+00C0..U+00DE (the multiplication sign apart) move 32 up. *)
Definition unicode_tolower (c : ascii) : ascii :=
  let n := N_of_ascii c in
  if (((65 <=? n) && (n <=? 90))
      || ((192 <=? n) && (n <=? 222) && negb (n =? 215)))%N
  then ascii_of_N (n + 32)
  else c.

Fixpoint lower (s : string) : string :=
  match s with
  | EmptyString => EmptyString
  | String c s' => String (unicode_tolower c) (lower s')
  end.

(** The characters [re] gives a meaning of their own. *)
Definition special_chars : string := ".^$*+?{}[]\|()".

Fixpoint mem_char (c : ascii) (s : string) : bool :=
  match s with
  | EmptyString => false
  | String d s' => Ascii.eqb c d || mem_char c s'
  end.

Definition is_special (c : ascii) : bool := mem_char c special_chars.

(** A compiled pattern of the modelled fragment: a sequence of literal
    characters and [.]. *)
Inductive op : Type :=
| LITERAL (c : ascii)
| ANY.

Definition pattern : Type := list op.

(** [re.compile(pat, flags=re.IGNORECASE)]. *)
Fixpoint compile (pat : string) : outcome pattern :=
  match pat with
  | EmptyString => Return []
  | String c pat' =>
      if Ascii.eqb c "."
      then (p <- compile pat' ;; Return (ANY :: p))
      else if is_special c
           then OutOfModel
           else (p <- compile pat' ;; Return (LITERAL c :: p))
  end.

(** One operator against one character, ignoring case; [.] takes any
    character but a newline. *)
Definition op_matches (o : op) (c : ascii) : bool :=
  match o with
  | LITERAL l => Ascii.eqb (unicode_tolower c) (unicode_tolower l)
  | ANY => negb (Ascii.eqb c "010")
  end.

(** The pattern matches at the start of [s]. *)
Fixpoint match_here (p : pattern) (s : string) : bool :=
  match p, s with
  | [], _ => true
  | _ :: _, EmptyString => false
  | o :: p', String c s' => op_matches o c && match_here p' s'
  end.

(** [pat.search(s) is not None]: a match at some position of [s]. *)
Fixpoint search (p : pattern) (s : string) : bool :=
  match_here p s ||
  match s with
  | EmptyString => false
  | String _ s' => search p s'
  end.

End Re.

(* ================================================================== *)
(** ** pandas: the country table *)

(** A cell of a text column: a string, or missing (NaN). *)
Inductive cell : Type :=
| Str (s : string)
| NaN.

(** A table as [read_csv] builds it from text columns, row by row: every
    cell is a string or missing, and every row has one cell per column
    label.  A column has the dtype [object], or [float64] when all its
    cells are missing; see [float64].  Columns of numbers or booleans
    are not described. *)
Record DataFrame : Type := mkDataFrame {
  columns : list string;
  rows : list (list cell)
}.

(** [pd.DataFrame()]: no columns, no rows. *)
Definition empty_DataFrame : DataFrame := mkDataFrame [] [].

Fixpoint get_loc (label : string) (labels : list string) : option nat :=
  match labels with
  | [] => None
  | l :: labels' =>
      if String.eqb l label then Some O
      else option_map S (get_loc label labels')
  end.

(** [df[label]]: the column as a list of cells, [KeyError] when the table
    has no such column. *)
Definition df_getitem (df : DataFrame) (label : string) : outcome (list cell) :=
  match get_loc label (columns df) with
  | Some i => Return (map (fun r => nth i r NaN) (rows df))
  | None => Raise (KeyError label)
  end.

Definition is_nan (c : cell) : bool :=
  match c with
  | NaN => true
  | Str _ => false
  end.

(** The dtype [read_csv] gives a column: [float64] when the column has
    rows and every cell is missing, [object] otherwise (some cell holds
    text, or the table has no rows). *)
Definition float64 (series : list cell) : bool :=
  match series with
  | [] => false
  | _ :: _ => forallb is_nan series
  end.

(** [series.str.contains(pat, case=False, na=False)].  The [.str]
    accessor comes first and raises [AttributeError] on a [float64]
    column; [regex] is left at its default [True], so [pat] is a regular
    expression. *)
Definition str_contains (series : list cell) (pat : string) : outcome (list bool) :=
  if float64 series then Raise AttributeError
  else
    p <- Re.compile pat ;;
    Return (map (fun c => match c with
                          | Str s => Re.search p s
                          | NaN => false
                          end) series).

(** Whether the column [label] of the table is a [float64] column. *)
Definition float64_column (df : DataFrame) (label : string) : bool :=
  match get_loc label (columns df) with
  | Some i => float64 (map (fun r => nth i r NaN) (rows df))
  | None => false
  end.

Fixpoint select {A : Type} (xs : list A) (mask : list bool) : list A :=
  match xs, mask with
  | x :: xs', b :: mask' => if b then x :: select xs' mask' else select xs' mask'
  | _, _ => []
  end.

(** [df[mask]]: boolean indexing keeps the rows whose mask entry is true. *)
Definition df_mask (df : DataFrame) (mask : list bool) : DataFrame :=
  mkDataFrame (columns df) (select (rows df) mask).

(** [df.empty]: some axis has length 0. *)
Definition df_empty (df : DataFrame) : bool :=
  match columns df, rows df with
  | [], _ => true
  | _, [] => true
  | _, _ => false
  end.

(** [df.iloc[0][label]]. *)
Definition iloc0_getitem (df : DataFrame) (label : string) : outcome cell :=
  match rows df with
  | [] => Raise IndexError
  | r :: _ =>
      match get_loc label (columns df) with
      | Some i => Return (nth i r NaN)
      | None => Raise (KeyError label)
      end
  end.

(* ================================================================== *)
(** ** [eval] on a [timezones] cell *)

Module PyEval.

(** The apostrophe and the double quote (code 34). *)
Definition is_quote (c : ascii) : bool :=
  Ascii.eqb c "'" || Ascii.eqb c "034".

(** A character that stands for itself inside a string literal:
    printable ASCII other than the backslash. *)
Definition plain (c : ascii) : bool :=
  let n := N_of_ascii c in
  ((32 <=? n) && (n <=? 126) && negb (n =? 92))%N.

Inductive state : Type :=
| Start
| Open
| InString (q : ascii) (acc : string)
| AfterItem
| AfterComma
| AfterSpace
| Closed.

(** A scanner for list displays of string literals without escapes:
    [[]], [['a']], [['a', "b"]].  [None]: the text is not of that shape. *)
Fixpoint scan (st : state) (items : list string) (s : string)
  : option (list string) :=
  match s with
  | EmptyString =>
      match st with
      | Closed => Some items
      | _ => None
      end
  | String c s' =>
      match st with
      | Start => if Ascii.eqb c "[" then scan Open items s' else None
      | Open =>
          if Ascii.eqb c "]" then scan Closed items s'
          else if is_quote c then scan (InString c "") items s'
          else None
      | InString q acc =>
          if Ascii.eqb c q then scan AfterItem (items ++ [acc]) s'
          else if plain c then scan (InString q (acc ++ String c "")) items s'
          else None
      | AfterItem =>
          if Ascii.eqb c "]" then scan Closed items s'
          else if Ascii.eqb c "," then scan AfterComma items s'
          else None
      | AfterComma =>
          if Ascii.eqb c " " then scan AfterSpace items s'
          else if is_quote c then scan (InString c "") items s'
          else None
      | AfterSpace =>
          if is_quote c then scan (InString c "") items s'
          else None
      | Closed => None
      end
  end.

Definition null_bytes_message : string :=
  "source code string cannot contain null bytes".

(** [eval(x)] for a cell [x] of a column; [numpy] tells that the column
    is a [float64] column.  A missing cell of an [object] column is a
    Python float, on which [eval] raises [TypeError]; a missing cell of a
    [float64] column is a [numpy.float64], whose eight bytes [eval]
    reads as source text and refuses with [ValueError] (Python 3.11). *)
Definition eval (numpy : bool) (x : cell) : outcome (list string) :=
  match x with
  | NaN => if numpy then Raise (ValueError null_bytes_message) else Raise TypeError
  | Str s =>
      match scan Start [] s with
      | Some items => Return items
      | None => OutOfModel
      end
  end.

End PyEval.

(** [xs[0]]. *)
Definition getitem0 {A : Type} (xs : list A) : outcome A :=
  match xs with
  | [] => Raise IndexError
  | x :: _ => Return x
  end.

(* ================================================================== *)
(** ** The resolver *)

(** [load_country_data]: [read_csv] is what [pd.read_csv] does, a table
    or an exception; the exception is reported on the page and replaced
    by [pd.DataFrame()]. *)
Definition load_country_data (read_csv : DataFrame + exception) : DataFrame :=
  match read_csv with
  | inl df => df
  | inr _ => empty_DataFrame
  end.

(** The dict literal of [get_timezone], in insertion order. *)
Definition utc_to_iana : list (string * string) :=
  [ ("UTC+00:00", "UTC");
    ("UTC+01:00", "Europe/Paris");
    ("UTC+02:00", "Europe/Kiev");
    ("UTC+03:00", "Europe/Moscow");
    ("UTC+04:00", "Asia/Dubai");
    ("UTC+05:00", "Asia/Karachi");
    ("UTC+05:30", "Asia/Kolkata");
    ("UTC+06:00", "Asia/Dhaka");
    ("UTC+07:00", "Asia/Bangkok");
    ("UTC+08:00", "Asia/Shanghai");
    ("UTC+09:00", "Asia/Tokyo");
    ("UTC+09:30", "Australia/Darwin");
    ("UTC+10:00", "Australia/Sydney");
    ("UTC+11:00", "Pacific/Noumea");
    ("UTC+12:00", "Pacific/Auckland");
    ("UTC-01:00", "Atlantic/Azores");
    ("UTC-02:00", "America/Noronha");
    ("UTC-03:00", "America/Sao_Paulo");
    ("UTC-04:00", "America/New_York");
    ("UTC-05:00", "America/Chicago");
    ("UTC-06:00", "America/Denver");
    ("UTC-07:00", "America/Phoenix");
    ("UTC-08:00", "America/Los_Angeles");
    ("UTC-09:00", "America/Anchorage");
    ("UTC-10:00", "Pacific/Honolulu");
    ("UTC-11:00", "Pacific/Midway");
    ("UTC-12:00", "Pacific/Wake") ].

(** [s.startswith(p)]. *)
Fixpoint startswith (s p : string) {struct p} : bool :=
  match p, s with
  | EmptyString, _ => true
  | String _ _, EmptyString => false
  | String b p', String a s' => Ascii.eqb a b && startswith s' p'
  end.

(** The [for ... in utc_to_iana.items()] loop: the zone of the first key
    the label starts with, the label itself when the loop runs out. *)
Fixpoint first_startswith (items : list (string * string)) (timezone : string)
  : string :=
  match items with
  | [] => timezone
  | (utc_offset, iana_zone) :: items' =>
      if startswith timezone utc_offset then iana_zone
      else first_startswith items' timezone
  end.

Definition not_found_message (country_name : string) : string :=
  "Country '" ++ country_name ++ "' not found in the dataset.".

Section Resolver.

(** The module-level table, [countries_data = load_country_data()]. *)
Variable countries_data : DataFrame.

(** Lines 34-39: the first offset label of the first record whose name
    the query is found in.  Selecting rows keeps the dtype of a column,
    so the dtype of [timezones] is read off the whole table. *)
Definition first_timezone (country_name : string) : outcome string :=
  names <- df_getitem countries_data "name" ;;
  mask <- str_contains names country_name ;;
  let country_data := df_mask countries_data mask in
  if df_empty country_data
  then Raise (ValueError (not_found_message country_name))
  else
    x <- iloc0_getitem country_data "timezones" ;;
    zones <- PyEval.eval (float64_column countries_data "timezones") x ;;
    getitem0 zones.

Definition get_timezone (country_name : string) : outcome string :=
  timezone <- first_timezone country_name ;;
  Return (first_startswith utc_to_iana timezone).

End Resolver.

(* ================================================================== *)
(** ** [datetime] and pytz *)

(** A naive [datetime]: the date as its proleptic Gregorian ordinal
    ([date.toordinal()]) and the time of day.  Dates stay far from
    [datetime.min] and [datetime.max], so arithmetic never overflows. *)
Record datetime : Type := mkdatetime {
  ordinal : Z;
  hour : Z;
  minute : Z;
  second : Z;
  microsecond : Z
}.

(** [dt.replace(hour=h, minute=0, second=0, microsecond=0)]: [h] is
    read as a C [int], which overflows outside [-2^31, 2^31 - 1], and
    must then be an hour of the day. *)
Definition replace_hour (dt : datetime) (h : Z) : outcome datetime :=
  if (0 <=? h) && (h <=? 23)
  then Return (mkdatetime (ordinal dt) h 0 0 0)
  else if (-2147483648 <=? h) && (h <=? 2147483647)
       then Raise (ValueError "hour must be in 0..23")
       else Raise OverflowError.

(** Whole seconds from midnight of ordinal 0 to [dt]. *)
Definition to_seconds (dt : datetime) : Z :=
  ((ordinal dt * 24 + hour dt) * 60 + minute dt) * 60 + second dt.

(** The datetime [t] seconds after midnight of ordinal 0. *)
Definition of_seconds (t us : Z) : datetime :=
  mkdatetime (t / 86400) (t mod 86400 / 3600) (t mod 3600 / 60) (t mod 60) us.

(** [dt + timedelta(seconds=k)]. *)
Definition plus_seconds (dt : datetime) (k : Z) : datetime :=
  of_seconds (to_seconds dt + k) (microsecond dt).

(** A pytz zone, as far as the program uses it: the UTC offset (in
    seconds) that [localize(dt)] ([is_dst=False]) attaches to a wall
    time, and the offset that [fromutc] gives to a UTC time. *)
Record tzinfo : Type := mktzinfo {
  localize_utcoffset : datetime -> Z;
  fromutc_utcoffset : datetime -> Z
}.

(** An aware [datetime]: wall time and the offset of its [tzinfo]. *)
Record aware : Type := mkaware {
  wall : datetime;
  utcoffset : Z
}.

(** [tz.localize(dt)]: the wall time is kept. *)
Definition localize (tz : tzinfo) (dt : datetime) : aware :=
  mkaware dt (localize_utcoffset tz dt).

(** [a.astimezone(tz)]: [tz.fromutc(a - a.utcoffset())]. *)
Definition astimezone (a : aware) (tz : tzinfo) : aware :=
  let utc := plus_seconds (wall a) (- utcoffset a) in
  let o := fromutc_utcoffset tz utc in
  mkaware (plus_seconds utc o) o.

(** [pytz.UTC]. *)
Definition UTC : tzinfo := mktzinfo (fun _ => 0) (fun _ => 0).

(** The instant of an aware datetime, in microseconds: what [<], [max]
    and [min] compare. *)
Definition timestamp (a : aware) : Z :=
  (to_seconds (wall a) - utcoffset a) * 1000000 + microsecond (wall a).

Definition aware_lt (a b : aware) : bool := timestamp a <? timestamp b.

(** [max(a, b)] and [min(a, b)] keep their first argument on a tie. *)
Definition py_max (a b : aware) : aware := if aware_lt a b then b else a.
Definition py_min (a b : aware) : aware := if aware_lt b a then b else a.

Definition digit (n : Z) : ascii := ascii_of_N (Z.to_N (48 + n)).

Definition two_digits (n : Z) : string :=
  String (digit (n / 10)) (String (digit (n mod 10)) "").

(** [a.strftime('%H:%M')]. *)
Definition strftime_HM (a : aware) : string :=
  two_digits (hour (wall a)) ++ ":" ++ two_digits (minute (wall a)).

(* ================================================================== *)
(** ** The overlap calculator *)

(** The two dicts [find_best_talk_time] returns, by their [status]. *)
Inductive talk_result : Type :=
| success (country1_time country2_time utc_time : string)
| error (message : string).

Definition no_overlap_message : string :=
  "There's no common awake time today. Consider adjusting schedules.".

Section Calculator.

Variable countries_data : DataFrame.

(** The zones pytz knows; [None] is [UnknownTimeZoneError]. *)
Variable tz_database : string -> option tzinfo.

(** What [datetime.now()] reads. *)
Variable now : datetime.

Definition pytz_timezone (zone : string) : outcome tzinfo :=
  match tz_database zone with
  | Some tz => Return tz
  | None => Raise (UnknownTimeZoneError zone)
  end.

Definition find_best_talk_time
    (country1 country2 : string)
    (wake_hours1 sleep_hours1 wake_hours2 sleep_hours2 : Z * Z)
  : outcome talk_result :=
  zone1 <- get_timezone countries_data country1 ;;
  timezone1 <- pytz_timezone zone1 ;;
  zone2 <- get_timezone countries_data country2 ;;
  timezone2 <- pytz_timezone zone2 ;;
  start1 <- replace_hour now (fst wake_hours1) ;;
  let wake_start1 := localize timezone1 start1 in
  end1 <- replace_hour now (snd wake_hours1) ;;
  let wake_end1 := localize timezone1 end1 in
  start2 <- replace_hour now (fst wake_hours2) ;;
  let wake_start2 := localize timezone2 start2 in
  end2 <- replace_hour now (snd wake_hours2) ;;
  let wake_end2 := localize timezone2 end2 in
  let wake_start1_utc := astimezone wake_start1 UTC in
  let wake_end1_utc := astimezone wake_end1 UTC in
  let wake_start2_utc := astimezone wake_start2 UTC in
  let wake_end2_utc := astimezone wake_end2 UTC in
  let overlap_start := py_max wake_start1_utc wake_start2_utc in
  let overlap_end := py_min wake_end1_utc wake_end2_utc in
  if aware_lt overlap_start overlap_end
  then
    let overlap_start_local1 := astimezone overlap_start timezone1 in
    let overlap_end_local1 := astimezone overlap_end timezone1 in
    let overlap_start_local2 := astimezone overlap_start timezone2 in
    let overlap_end_local2 := astimezone overlap_end timezone2 in
    Return (success
      (strftime_HM overlap_start_local1 ++ " to " ++ strftime_HM overlap_end_local1)
      (strftime_HM overlap_start_local2 ++ " to " ++ strftime_HM overlap_end_local2)
      (strftime_HM overlap_start ++ " to " ++ strftime_HM overlap_end))
  else
    Return (error no_overlap_message).

End Calculator.

(* ================================================================== *)
(** ** Streamlit: the page of [main] *)

(** What one run of the script puts on the page, in script order.
    [column] is the column of the enclosing [st.columns] row, counted
    from 1. *)
Inductive element : Type :=
| st_title (body : string)
| st_write (body : string)
| st_subheader (column : nat) (body : string)
| st_selectbox (column : nat) (label : string) (options : list cell) (key : string)
| st_number_input (column : nat) (label : string)
                  (min_value max_value value : Z) (key : string)
| st_button (label : string)
| st_success (body : string)
| st_metric (column : nat) (label value : string)
| st_error (body : string)
| st_markdown (body : string).

(** A piece of script: what it has put on the page, and how it ended. *)
Definition script (A : Type) : Type := (list element * outcome A)%type.

Definition show (e : element) : script unit := ([e], Return tt).

Definition call {A : Type} (o : outcome A) : script A := ([], o).

Definition and_then {A B : Type} (m : script A) (k : A -> script B) : script B :=
  let (shown, o) := m in
  match o with
  | Return a => let (shown', o') := k a in ((shown ++ shown')%list, o')
  | Raise e => (shown, Raise e)
  | OutOfModel => (shown, OutOfModel)
  end.

Notation "x <~ m ;; k" := (and_then m (fun x => k))
  (at level 61, m at next level, right associativity).
Notation "m ;> k" := (and_then m (fun _ => k))
  (at level 61, right associativity).

(** [try: body / except ValueError as e: handler(str(e))]: no other
    exception is caught. *)
Definition except_ValueError (body : script unit) (handler : string -> script unit)
  : script unit :=
  let (shown, o) := body in
  match o with
  | Raise (ValueError msg) =>
      let (shown', o') := handler msg in ((shown ++ shown')%list, o')
  | _ => (shown, o)
  end.

Fixpoint insert (s : string) (l : list string) : list string :=
  match l with
  | [] => [s]
  | t :: l' => if String.leb s t then s :: t :: l' else t :: insert s l'
  end.

(** The strings in ascending order of their code points. *)
Definition sort_strings (l : list string) : list string :=
  fold_right insert [] l.

(** The strings of the cells, when every cell is a string. *)
Fixpoint texts (cells : list cell) : option (list string) :=
  match cells with
  | [] => Some []
  | Str s :: cells' => option_map (cons s) (texts cells')
  | NaN :: _ => None
  end.

(** [sorted(series.tolist())]: strings are put in order; a list of
    missing values alone stays as it is (no [nan] is less than another);
    comparing a string with a [nan] raises [TypeError]. *)
Definition sorted (cells : list cell) : outcome (list cell) :=
  if forallb is_nan cells then Return cells
  else match texts cells with
       | Some l => Return (map Str (sort_strings l))
       | None => Raise TypeError
       end.

(** The state of the widgets when the script runs: the option picked
    in each [selectbox] (by its position), the number each
    [number_input] holds, and whether the button was just pressed. *)
Record session : Type := mksession {
  country1_index : nat;
  wake_hour1 : Z;
  sleep_hour1 : Z;
  country2_index : nat;
  wake_hour2 : Z;
  sleep_hour2 : Z;
  find_clicked : bool
}.

(** The value of a [selectbox] as [find_best_talk_time] receives it: the
    picked name.  A list without options gives [None], and a missing
    name is a [nan]; what pandas does with those as a pattern is not
    modelled. *)
Definition selected (options : list cell) (index : nat) : outcome string :=
  match nth_error options index with
  | Some (Str s) => Return s
  | _ => OutOfModel
  end.

(** [st.number_input(label, min_value, max_value, value, key=key)]: the
    widget is shown and gives the number it holds, [held].  A widget
    never holds a number outside its bounds; such a state does not occur
    and is left out of the model. *)
Definition number_input (column : nat) (label : string)
    (min_value max_value value : Z) (key : string) (held : Z) : script Z :=
  show (st_number_input column label min_value max_value value key) ;>
  call (if (min_value <=? held) && (held <=? max_value)
        then Return held else OutOfModel).

(** One [with col:] block of the form; it gives the two hours read. *)
Definition person_column (k : nat) (person : string) (country_list : list cell)
    (country_key wake_key sleep_key : string) (wake sleep : Z) : script (Z * Z) :=
  show (st_subheader k person) ;>
  show (st_selectbox k "Select your country" country_list country_key) ;>
  wake_hour <~ number_input k "Wake hour (0-23)" 0 23 7 wake_key wake ;;
  sleep_hour <~ number_input k "Sleep hour (0-23)" 0 23 23 sleep_key sleep ;;
  call (Return (wake_hour, sleep_hour)).

(** The [if result['status'] == 'success': ... else: ...] of [main]. *)
Definition show_result (country1 country2 : string) (result : talk_result)
  : script unit :=
  match result with
  | success country1_time country2_time utc_time =>
      show (st_success "Found overlapping time!") ;>
      show (st_metric 1 ("Time in " ++ country1) country1_time) ;>
      show (st_metric 2 ("Time in " ++ country2) country2_time) ;>
      show (st_metric 3 "Time in UTC" utc_time)
  | error message => show (st_error message)
  end.

Section Page.

Variable countries_data : DataFrame.
Variable tz_database : string -> option tzinfo.
Variable now : datetime.

(** The two emoji of the page, a globe and a heart. *)
Variables globe heart : string.

Definition main (ui : session) : script unit :=
  show (st_title (globe ++ " Time Zone Meeting Planner")) ;>
  show (st_write "Find the best time to talk with someone in a different time zone!") ;>
  names <~ call (df_getitem countries_data "name") ;;
  country_list <~ call (sorted names) ;;
  hours1 <~ person_column 1 "Person 1" country_list "country1" "wake1" "sleep1"
              (wake_hour1 ui) (sleep_hour1 ui) ;;
  hours2 <~ person_column 2 "Person 2" country_list "country2" "wake2" "sleep2"
              (wake_hour2 ui) (sleep_hour2 ui) ;;
  show (st_button "Find Best Time") ;>
  (if find_clicked ui
   then
     except_ValueError
       (country1 <~ call (selected country_list (country1_index ui)) ;;
        country2 <~ call (selected country_list (country2_index ui)) ;;
        result <~ call (find_best_talk_time countries_data tz_database now
                          country1 country2 hours1 hours1 hours2 hours2) ;;
        show_result country1 country2 result)
       (fun msg => show (st_error ("Error: " ++ msg)))
   else call (Return tt)) ;>
  show (st_markdown "---") ;>
  show (st_markdown ("Made with " ++ heart ++ " using Streamlit")).

End Page.

(* ================================================================== *)
(** ** Sample data *)

(** A zone whose offset never changes. *)
Definition fixed_offset (seconds : Z) : tzinfo :=
  mktzinfo (fun _ => seconds) (fun _ => seconds).

(** A zone at UTC+1 that moves its clocks to UTC+2 at 01:00 UTC of the
    date [d], from 02:00 to 03:00 on the wall.  [localize] with
    [is_dst=False] attaches the old offset to the wall times the jump
    skips. *)
Definition spring_forward (d : Z) : tzinfo :=
  mktzinfo
    (fun dt => if to_seconds dt <? d * 86400 + 3 * 3600 then 3600 else 7200)
    (fun utc => if to_seconds utc <? d * 86400 + 3600 then 3600 else 7200).

(** Zones of the tz database as they are in the spring of 2024: UTC,
    three zones that have kept one offset since 1951, and Europe/Paris,
    which moves to summer time on 31 March 2024 (ordinal 738976). *)
Definition sample_tz_database (zone : string) : option tzinfo :=
  if String.eqb zone "UTC" then Some UTC
  else if String.eqb zone "Asia/Tokyo" then Some (fixed_offset 32400)
  else if String.eqb zone "Asia/Kolkata" then Some (fixed_offset 19800)
  else if String.eqb zone "Pacific/Honolulu" then Some (fixed_offset (-36000))
  else if String.eqb zone "Europe/Paris" then Some (spring_forward 738976)
  else None.

Definition sample_countries : DataFrame :=
  mkDataFrame ["name"; "timezones"]
    [ [Str "India"; Str "['UTC+05:30']"];
      [Str "Japan"; Str "['UTC+09:00']"];
      [Str "Nepal"; Str "['UTC+05:45']"];
      [Str "Sri Lanka"; Str "['UTC+05:30 (SLST)']"];
      [Str "Germany"; Str "['UTC+01:00']"] ].

(** What a file with the header line alone is read as. *)
Definition header_only : DataFrame := mkDataFrame ["name"; "timezones"] [].

(** 15 March 2024, 13:28:05. *)
Definition sample_now : datetime := mkdatetime 738960 13 28 5 0.

(** 31 March 2024, 09:15:00. *)
Definition spring_now : datetime := mkdatetime 738976 9 15 0 0.

(* ================================================================== *)
(** ** Notions of the specification *)

(** [sub in s]. *)
Fixpoint contains (s sub : string) : bool :=
  startswith s sub ||
  match s with
  | EmptyString => false
  | String _ s' => contains s' sub
  end.

(** [sub] occurs in [s] as a case-insensitive substring. *)
Definition contains_ignoring_case (s sub : string) : bool :=
  contains (Re.lower s) (Re.lower sub).

(** A query none of whose characters is a regular-expression operator. *)
Fixpoint plain_text (q : string) : bool :=
  match q with
  | EmptyString => true
  | String c q' => negb (Re.is_special c) && plain_text q'
  end.

(** The compiled form of a plain-text query. *)
Fixpoint literals (q : string) : Re.pattern :=
  match q with
  | EmptyString => []
  | String c q' => Re.LITERAL c :: literals q'
  end.

(** Whether a query is found in a cell of the [name] column. *)
Definition cell_contains (q : string) (c : cell) : bool :=
  match c with
  | Str s => contains_ignoring_case s q
  | NaN => false
  end.

(** A text that can stand between two apostrophes as it is: printable
    ASCII, no backslash, no apostrophe. *)
Fixpoint quotable (s : string) : bool :=
  match s with
  | EmptyString => true
  | String c s' => negb (Ascii.eqb c "'") && PyEval.plain c && quotable s'
  end.

(** The text of a list display with the one item [label]. *)
Definition sole_item (label : string) : string := "['" ++ label ++ "']".

(** The label starts with no key of the table. *)
Definition unmapped (label : string) : bool :=
  forallb (fun kz => negb (startswith label (fst kz))) utc_to_iana.

(** The integers [lo], [lo + 1], ..., [lo + len - 1]. *)
Definition Z_range (lo : Z) (len : nat) : list Z :=
  map (fun n => lo + Z.of_nat n) (seq 0 len).

(** The label of the offset of [h] hours and [m] minutes, [UTC+05:30]. *)
Definition offset_label (h m : Z) : string :=
  "UTC" ++ (if h <? 0 then "-" else "+") ++ two_digits (Z.abs h) ++ ":"
        ++ two_digits m.

Definition is_digit (c : ascii) : bool :=
  let n := N_of_ascii c in ((48 <=? n) && (n <=? 57))%N.

Definition digit_value (c : ascii) : Z := Z.of_N (N_of_ascii c) - 48.

(** A zero-padded 24-hour time of day, [HH:MM]. *)
Definition is_HHMM (s : string) : bool :=
  match s with
  | String h1 (String h2 (String c (String m1 (String m2 EmptyString)))) =>
      is_digit h1 && is_digit h2 && Ascii.eqb c ":" &&
      is_digit m1 && is_digit m2 &&
      (10 * digit_value h1 + digit_value h2 <? 24) &&
      (10 * digit_value m1 + digit_value m2 <? 60)
  | _ => false
  end.

(** A range [HH:MM to HH:MM]. *)
Definition is_time_range (s : string) : bool :=
  match s with
  | String h1 (String h2 (String c (String m1 (String m2
      (String " " (String "t" (String "o" (String " " rest)))))))) =>
      is_HHMM (String h1 (String h2 (String c (String m1 (String m2 "")))))
      && is_HHMM rest
  | _ => false
  end.

(** The window [wake_hour:00 to sleep_hour:00] as a range. *)
Definition window_text (window : Z * Z) : string :=
  two_digits (fst window) ++ ":00 to " ++ two_digits (snd window) ++ ":00".

Definition valid_hour (h : Z) : Prop := 0 <= h <= 23.

Definition valid_window (window : Z * Z) : Prop :=
  valid_hour (fst window) /\ valid_hour (snd window).

(** The UTC instant of [hour]:00 on the date of [now] in zone [tz]. *)
Definition wake_utc (tz : tzinfo) (now : datetime) (h : Z) : aware :=
  astimezone (localize tz (mkdatetime (ordinal now) h 0 0 0)) UTC.

(** The wall time of [wake_utc tz now h], in seconds. *)
Definition wake_seconds (tz : tzinfo) (now : datetime) (h : Z) : Z :=
  to_seconds (mkdatetime (ordinal now) h 0 0 0)
  - localize_utcoffset tz (mkdatetime (ordinal now) h 0 0 0).

(** The [HH:MM to HH:MM] text of the three f-strings. *)
Definition time_range (s e : aware) : string :=
  strftime_HM s ++ " to " ++ strftime_HM e.

(** [overlap_start] and [overlap_end] of [find_best_talk_time], for the
    zones [tz1], [tz2] and the pairs [w1], [w2] of hours. *)
Definition overlap_start (tz1 tz2 : tzinfo) (now : datetime) (w1 w2 : Z * Z)
  : aware :=
  py_max (wake_utc tz1 now (fst w1)) (wake_utc tz2 now (fst w2)).

Definition overlap_end (tz1 tz2 : tzinfo) (now : datetime) (w1 w2 : Z * Z)
  : aware :=
  py_min (wake_utc tz1 now (snd w1)) (wake_utc tz2 now (snd w2)).

(** The time of day is in range. *)
Definition normal_time (a : aware) : Prop :=
  0 <= hour (wall a) < 24 /\ 0 <= minute (wall a) < 60.

(** A result with the two persons exchanged. *)
Definition swap_persons (r : talk_result) : talk_result :=
  match r with
  | success c1 c2 u => success c2 c1 u
  | error m => error m
  end.

(** The zone keeps the offset [o] at the wall time [dt]: [localize]
    attaches [o], and [fromutc] gives [o] back at that instant. *)
Definition keeps_offset (tz : tzinfo) (o : Z) (dt : datetime) : Prop :=
  localize_utcoffset tz dt = o /\
  fromutc_utcoffset tz (plus_seconds dt (- o)) = o.

(* ================================================================== *)
(** ** Notions for the further properties *)

(** What the steps after the selection do with the selected record. *)
Definition zone_of_record (df : DataFrame) (r : list cell) : outcome string :=
  timezone <-
    (x <- match get_loc "timezones" (columns df) with
          | Some j => Return (nth j r NaN)
          | None => Raise (KeyError "timezones")
          end ;;
     zones <- PyEval.eval (float64_column df "timezones") x ;;
     getitem0 zones) ;;
  Return (first_startswith utc_to_iana timezone).

(** Every key of the table has [n] characters. *)
Definition keys_of_length (n : nat) (items : list (string * string)) : Prop :=
  forall k z, In (k, z) items -> String.length k = n.

(** No key of the table has two zones. *)
Definition functional (items : list (string * string)) : Prop :=
  forall k z z', In (k, z) items -> In (k, z') items -> z = z'.

(** An integer that fits a C [int]. *)
Definition c_int (h : Z) : Prop := -2147483648 <= h <= 2147483647.

Definition c_int_window (window : Z * Z) : Prop :=
  c_int (fst window) /\ c_int (snd window).

(** The wall time [h]:00 on the date of [now]. *)
Definition on_the_hour (now : datetime) (h : Z) : datetime :=
  mkdatetime (ordinal now) h 0 0 0.

(** The [HH:MM] of the time of day [x] seconds after a midnight. *)
Definition clock (x : Z) : string :=
  two_digits (x mod 86400 / 3600) ++ ":" ++ two_digits (x mod 3600 / 60).

Definition clock_range (x y : Z) : string := clock x ++ " to " ++ clock y.

(** The result for two zones of fixed offsets [o1] and [o2] (seconds),
    computed on seconds from the midnight that starts the reference
    date in UTC. *)
Definition fixed_offsets_result (o1 o2 : Z) (w1 w2 : Z * Z) : talk_result :=
  let start1 := fst w1 * 3600 - o1 in
  let end1 := snd w1 * 3600 - o1 in
  let start2 := fst w2 * 3600 - o2 in
  let end2 := snd w2 * 3600 - o2 in
  let start := if start1 <? start2 then start2 else start1 in
  let stop := if end2 <? end1 then end2 else end1 in
  if start <? stop
  then success (clock_range (start + o1) (stop + o1))
               (clock_range (start + o2) (stop + o2))
               (clock_range start stop)
  else error no_overlap_message.

(** The UTC datetime [x] seconds after the midnight that starts day [d]. *)
Definition day_instant (d x : Z) : aware :=
  mkaware (of_seconds (d * 86400 + x) 0) 0.

(** The page up to the button, for the list of countries
    [country_list]. *)
Definition form_elements (globe : string) (country_list : list cell)
  : list element :=
  [ st_title (globe ++ " Time Zone Meeting Planner");
    st_write "Find the best time to talk with someone in a different time zone!";
    st_subheader 1 "Person 1";
    st_selectbox 1 "Select your country" country_list "country1";
    st_number_input 1 "Wake hour (0-23)" 0 23 7 "wake1";
    st_number_input 1 "Sleep hour (0-23)" 0 23 23 "sleep1";
    st_subheader 2 "Person 2";
    st_selectbox 2 "Select your country" country_list "country2";
    st_number_input 2 "Wake hour (0-23)" 0 23 7 "wake2";
    st_number_input 2 "Sleep hour (0-23)" 0 23 23 "sleep2";
    st_button "Find Best Time" ].

(** The two lines that close the page. *)
Definition footer_elements (heart : string) : list element :=
  [ st_markdown "---"; st_markdown ("Made with " ++ heart ++ " using Streamlit") ].

(** What the page shows of a result. *)
Definition result_elements (country1 country2 : string) (result : talk_result)
  : list element :=
  match result with
  | success country1_time country2_time utc_time =>
      [ st_success "Found overlapping time!";
        st_metric 1 ("Time in " ++ country1) country1_time;
        st_metric 2 ("Time in " ++ country2) country2_time;
        st_metric 3 "Time in UTC" utc_time ]
  | error message => [ st_error message ]
  end.

(** The four [number_input] widgets hold numbers within their bounds. *)
Definition widgets_in_range (ui : session) : bool :=
  ((0 <=? wake_hour1 ui) && (wake_hour1 ui <=? 23)) &&
  ((0 <=? sleep_hour1 ui) && (sleep_hour1 ui <=? 23)) &&
  ((0 <=? wake_hour2 ui) && (wake_hour2 ui <=? 23)) &&
  ((0 <=? sleep_hour2 ui) && (sleep_hour2 ui <=? 23)).

(** The call that a press of the button makes, in a state the widgets
    can be in. *)
Definition pressed_call (df : DataFrame) (tzdb : string -> option tzinfo)
    (now : datetime) (country1 country2 : string) (ui : session)
  : outcome talk_result :=
  if widgets_in_range ui
  then find_best_talk_time df tzdb now country1 country2
         (wake_hour1 ui, sleep_hour1 ui) (wake_hour1 ui, sleep_hour1 ui)
         (wake_hour2 ui, sleep_hour2 ui) (wake_hour2 ui, sleep_hour2 ui)
  else OutOfModel.

(** The numbers of the four [number_input] widgets are in their range. *)
Definition valid_session (ui : session) : Prop :=
  valid_window (wake_hour1 ui, sleep_hour1 ui) /\
  valid_window (wake_hour2 ui, sleep_hour2 ui).

(* ================================================================== *)
(** ** The resolver: lemmas *)

Lemma compile_plain_text (q : string) :
  plain_text q = true -> Re.compile q = Return (literals q).
Proof.
  induction q as [|c q IH]; simpl; intros H.
  - reflexivity.
  - apply andb_true_iff in H as [Hc Hq].
    apply negb_true_iff in Hc.
    destruct (Ascii.eqb c ".") eqn:Hdot.
    + apply Ascii.eqb_eq in Hdot. subst c. discriminate Hc.
    + rewrite Hc, (IH Hq). reflexivity.
Qed.

Lemma match_here_literals (q s : string) :
  Re.match_here (literals q) s = startswith (Re.lower s) (Re.lower q).
Proof.
  revert s. induction q as [|c q IH]; intros [|a s]; simpl; try reflexivity.
  now rewrite IH.
Qed.

Lemma search_literals (q s : string) :
  Re.search (literals q) s = contains_ignoring_case s q.
Proof.
  unfold contains_ignoring_case.
  induction s as [|a s IH]; simpl.
  - now rewrite match_here_literals.
  - now rewrite match_here_literals, IH.
Qed.

Lemma select_map {A : Type} (f : A -> bool) (xs : list A) :
  select xs (map f xs) = filter f xs.
Proof.
  induction xs as [|x xs IH]; simpl; [reflexivity|].
  destruct (f x); now rewrite IH.
Qed.

(** On a [float64] column of names the [.str] accessor stops the call. *)
Lemma first_timezone_float64 (df : DataFrame) (q : string) :
  float64_column df "name" = true ->
  first_timezone df q = Raise AttributeError.
Proof.
  unfold float64_column, first_timezone, df_getitem, str_contains.
  destruct (get_loc "name" (columns df)) as [i|]; [|discriminate].
  intros H. cbn [bind]. now rewrite H.
Qed.

(** Lines 34-39 on a plain-text query and a text column of names, step
    by step. *)
Lemma first_timezone_plain (df : DataFrame) (q : string) (i : nat) :
  get_loc "name" (columns df) = Some i ->
  float64_column df "name" = false ->
  plain_text q = true ->
  first_timezone df q =
  match filter (fun r => cell_contains q (nth i r NaN)) (rows df) with
  | [] => Raise (ValueError (not_found_message q))
  | r :: _ =>
      x <- match get_loc "timezones" (columns df) with
           | Some j => Return (nth j r NaN)
           | None => Raise (KeyError "timezones")
           end ;;
      zones <- PyEval.eval (float64_column df "timezones") x ;;
      getitem0 zones
  end.
Proof.
  intros Hloc Hobj Hq. unfold first_timezone, df_getitem, str_contains.
  unfold float64_column in Hobj. rewrite Hloc in Hobj.
  rewrite Hloc. cbn [bind]. rewrite Hobj, (compile_plain_text q Hq). cbn [bind].
  rewrite map_map.
  rewrite (map_ext _ (fun r => cell_contains q (nth i r NaN))).
  2:{ intros r. destruct (nth i r NaN); simpl; [apply search_literals | reflexivity]. }
  unfold df_empty, df_mask, iloc0_getitem. cbn [columns rows].
  rewrite select_map.
  destruct (columns df) as [|c cs] eqn:Hc; [discriminate Hloc|].
  destruct (filter _ (rows df)) as [|r rs]; reflexivity.
Qed.

(** The message of the "not found" error is not the message of [eval]. *)
Lemma not_found_message_neq (q : string) :
  PyEval.null_bytes_message <> not_found_message q.
Proof. discriminate. Qed.

(** The only [ValueError] of the steps after the selection is the one
    [eval] raises on a [numpy.float64]. *)
Lemma later_steps_ValueError (numpy : bool) (x : outcome cell) (msg : string) :
  (c <- x ;; zones <- PyEval.eval numpy c ;; getitem0 zones)
  = Raise (ValueError msg) ->
  x = Raise (ValueError msg) \/ (numpy = true /\ msg = PyEval.null_bytes_message).
Proof.
  destruct x as [c|e|]; cbn [bind]; intros H; try (left; congruence).
  destruct c as [s|]; cbn in H.
  - destruct (PyEval.scan PyEval.Start [] s) as [[|z zs]|]; cbn in H; discriminate.
  - destruct numpy; [|discriminate]. right. split; [reflexivity|].
    injection H as <-. reflexivity.
Qed.

Lemma get_timezone_raises (df : DataFrame) (q : string) (e : exception) :
  get_timezone df q = Raise e <-> first_timezone df q = Raise e.
Proof.
  unfold get_timezone.
  destruct (first_timezone df q); cbn [bind]; split; congruence.
Qed.

Lemma forallb_false_exists {A : Type} (f : A -> bool) (xs : list A) :
  forallb f xs = false -> exists x, In x xs /\ f x = false.
Proof.
  induction xs as [|x xs IH]; simpl; [discriminate|].
  destruct (f x) eqn:Hx.
  - intros H. destruct (IH H) as (y & Hy & Hfy). exists y. auto.
  - intros _. exists x. auto.
Qed.

(** The dtype of the column of names, read off the column. *)
Lemma float64_column_name (df : DataFrame) (names : list cell) :
  df_getitem df "name" = Return names ->
  float64_column df "name" = float64 names.
Proof.
  unfold df_getitem, float64_column.
  destruct (get_loc "name" (columns df)); [|discriminate].
  intros H. now injection H as <-.
Qed.

(** A column that holds a string is a text column. *)
Lemma float64_with_text (series : list cell) (s : string) :
  In (Str s) series -> float64 series = false.
Proof.
  intros Hin. unfold float64. destruct series as [|c cs]; [reflexivity|].
  apply not_true_is_false. intros H. rewrite forallb_forall in H.
  discriminate (H (Str s) Hin).
Qed.

(** On a plain-text query and a text column of names the resolver
    reports "not found" exactly when no cell of the [name] column
    contains the query, ignoring case. *)
Lemma not_found_plain (df : DataFrame) (q : string) (names : list cell) :
  plain_text q = true ->
  df_getitem df "name" = Return names ->
  float64 names = false ->
  get_timezone df q = Raise (ValueError (not_found_message q))
  <-> forall c, In c names -> cell_contains q c = false.
Proof.
  intros Hq Hnames Hobj. rewrite get_timezone_raises.
  rewrite <- (float64_column_name df names Hnames) in Hobj.
  unfold df_getitem in Hnames.
  destruct (get_loc "name" (columns df)) as [i|] eqn:Hloc; [|discriminate].
  injection Hnames as <-.
  rewrite (first_timezone_plain df q i Hloc Hobj Hq).
  destruct (filter _ (rows df)) as [|r rs] eqn:Hf.
  - split; [intros _ | reflexivity].
    intros c Hin. apply in_map_iff in Hin as (r & <- & Hr).
    destruct (cell_contains q (nth i r NaN)) eqn:Hc; [|reflexivity].
    assert (In r []) as []. rewrite <- Hf. apply filter_In. auto.
  - split.
    + intros H. apply later_steps_ValueError in H as [H|[_ H]].
      * destruct (get_loc "timezones" (columns df)); discriminate.
      * symmetry in H. destruct (not_found_message_neq q H).
    + intros H. exfalso.
      assert (In r (filter (fun r => cell_contains q (nth i r NaN)) (rows df)))
        as Hin by (rewrite Hf; now left).
      apply filter_In in Hin as [Hin Hc].
      rewrite (H (nth i r NaN)) in Hc; [discriminate|].
      apply in_map_iff. now exists r.
Qed.



Lemma contains_startswith (s sub : string) :
  startswith s sub = true -> contains s sub = true.
Proof. intros H. destruct s; simpl; now rewrite H. Qed.

Lemma contains_nil (s : string) : contains s "" = true.
Proof. destruct s; reflexivity. Qed.

Lemma first_startswith_unmapped (items : list (string * string)) (label : string) :
  forallb (fun kz => negb (startswith label (fst kz))) items = true ->
  first_startswith items label = label.
Proof.
  induction items as [|[k z] items IH]; simpl; intros H; [reflexivity|].
  apply andb_true_iff in H as [Hk Hrest].
  apply negb_true_iff in Hk. rewrite Hk. exact (IH Hrest).
Qed.

Lemma first_startswith_key (k z suffix : string) :
  In (k, z) utc_to_iana ->
  first_startswith utc_to_iana (k ++ suffix) = z.
Proof.
  intros H. simpl in H.
  repeat (destruct H as [H|H]; [injection H as <- <-; reflexivity|]).
  contradiction.
Qed.

Lemma Z_range_In (lo : Z) (len : nat) (x : Z) :
  lo <= x < lo + Z.of_nat len -> In x (Z_range lo len).
Proof.
  intros H. unfold Z_range. apply in_map_iff.
  exists (Z.to_nat (x - lo)). split; [lia|].
  apply in_seq. lia.
Qed.

Lemma Z_range_forallb (P : Z -> bool) (lo : Z) (len : nat) :
  forallb P (Z_range lo len) = true ->
  forall x, lo <= x < lo + Z.of_nat len -> P x = true.
Proof.
  intros H x Hx. rewrite forallb_forall in H. apply H, Z_range_In, Hx.
Qed.

Lemma append_assoc (a b c : string) : (a ++ b) ++ c = a ++ (b ++ c).
Proof. induction a as [|x a IH]; simpl; [reflexivity | now rewrite IH]. Qed.

Lemma append_nil_r (a : string) : a ++ "" = a.
Proof. induction a as [|x a IH]; simpl; [reflexivity | now rewrite IH]. Qed.

(** The scanner reads a quotable text up to the closing apostrophe. *)
Lemma scan_quotable (body acc rest : string) (items : list string) :
  quotable body = true ->
  PyEval.scan (PyEval.InString "'" acc) items (body ++ String "'" rest)
  = PyEval.scan PyEval.AfterItem (items ++ [acc ++ body]) rest.
Proof.
  revert acc. induction body as [|c body IH]; intros acc H; simpl.
  - now rewrite append_nil_r.
  - simpl in H. apply andb_true_iff in H as [H Hbody].
    apply andb_true_iff in H as [Hq Hplain].
    apply negb_true_iff in Hq. rewrite Hq, Hplain, (IH _ Hbody).
    now rewrite append_assoc.
Qed.

Lemma eval_sole_item (numpy : bool) (label : string) :
  quotable label = true ->
  PyEval.eval numpy (Str (sole_item label)) = Return [label].
Proof.
  intros H. unfold PyEval.eval, sole_item. simpl.
  now rewrite (scan_quotable label "" "]" [] H).
Qed.

(** A record whose [timezones] cell is the list display of one label:
    the query that selects it first resolves to that label. *)
Lemma first_timezone_sole_item
    (df : DataFrame) (q label : string) (i j : nat)
    (r : list cell) (rs : list (list cell)) :
  get_loc "name" (columns df) = Some i ->
  get_loc "timezones" (columns df) = Some j ->
  plain_text q = true ->
  filter (fun r => cell_contains q (nth i r NaN)) (rows df) = r :: rs ->
  nth j r NaN = Str (sole_item label) ->
  quotable label = true ->
  first_timezone df q = Return label.
Proof.
  intros Hi Hj Hq Hsel Hcell Hlabel.
  assert (Hobj : float64_column df "name" = false).
  { assert (Hin : In r (filter (fun r => cell_contains q (nth i r NaN)) (rows df)))
      by (rewrite Hsel; now left).
    apply filter_In in Hin as [Hin Hc].
    destruct (nth i r NaN) as [s|] eqn:Hs; [|discriminate Hc].
    unfold float64_column. rewrite Hi. apply (float64_with_text _ s).
    apply in_map_iff. now exists r. }
  rewrite (first_timezone_plain df q i Hi Hobj Hq), Hsel, Hj. cbn [bind].
  rewrite Hcell, (eval_sole_item _ label Hlabel). reflexivity.
Qed.

(** A table with the columns and no rows: every plain-text query is
    "not found". *)
Lemma get_timezone_header_only (q : string) :
  plain_text q = true ->
  get_timezone header_only q = Raise (ValueError (not_found_message q)).
Proof.
  intros Hq. apply (not_found_plain header_only q [] Hq eq_refl eq_refl).
  intros c [].
Qed.

(* ------------------------------------------------------------------ *)
(** *** Claims on the resolver *)




(** C3, at its concrete failing input: the table has 27 entries, not 25. *)
Lemma utc_to_iana_has_27_entries :
  List.length utc_to_iana = 27%nat /\ Nat.eqb (List.length utc_to_iana) 25 = false.
Proof. split; reflexivity. Qed.

(** C3, amended: the table has exactly 27 entries; its keys cover every
    whole-hour offset from -12:00 to +12:00 and the half-hour offsets
    +5:30 and +9:30; and when the first stored offset label of the
    resolved country is a key of the table, or a key followed by any
    suffix, [get_timezone] returns the zone mapped to that key. *)
Theorem get_timezone_maps_table_keys :
  List.length utc_to_iana = 27%nat /\
  (forall h, -12 <= h <= 12 -> In (offset_label h 0) (map fst utc_to_iana)) /\
  In (offset_label 5 30) (map fst utc_to_iana) /\
  In (offset_label 9 30) (map fst utc_to_iana) /\
  (forall df q k z,
      In (k, z) utc_to_iana ->
      first_timezone df q = Return k ->
      get_timezone df q = Return z) /\
  (forall df q k z suffix,
      In (k, z) utc_to_iana ->
      first_timezone df q = Return (k ++ suffix) ->
      get_timezone df q = Return z).
Proof.
  assert (Hsuffix : forall df q k z suffix,
             In (k, z) utc_to_iana ->
             first_timezone df q = Return (k ++ suffix) ->
             get_timezone df q = Return z).
  { intros df q k z suffix Hin Hfirst. unfold get_timezone.
    rewrite Hfirst. cbn [bind]. now rewrite (first_startswith_key k z suffix Hin). }
  split; [reflexivity|]. split.
  { intros h Hh.
    assert (Hall : forallb
              (fun h => existsb (String.eqb (offset_label h 0))
                                (map fst utc_to_iana))
              (Z_range (-12) 25) = true) by (vm_compute; reflexivity).
    pose proof (Z_range_forallb _ _ _ Hall h ltac:(lia)) as Hex.
    apply existsb_exists in Hex as (k & Hk & Heq).
    apply String.eqb_eq in Heq. now rewrite Heq. }
  split; [vm_compute; tauto|]. split; [vm_compute; tauto|]. split.
  - intros df q k z Hin Hfirst. apply (Hsuffix df q k z ""); [exact Hin|].
    rewrite Hfirst. f_equal. clear. induction k; simpl; congruence.
  - exact Hsuffix.
Qed.

Lemma get_timezone_maps_table_keys_witness :
  In ("UTC+05:30", "Asia/Kolkata") utc_to_iana /\
  first_timezone sample_countries "sri lanka" = Return ("UTC+05:30" ++ " (SLST)") /\
  get_timezone sample_countries "sri lanka" = Return "Asia/Kolkata".
Proof.
  assert (Hin : In ("UTC+05:30", "Asia/Kolkata") utc_to_iana)
    by (do 6 right; left; reflexivity).
  split; [exact Hin|]. split; [reflexivity|].
  exact (proj2 (proj2 (proj2 (proj2 (proj2 get_timezone_maps_table_keys))))
           sample_countries "sri lanka" "UTC+05:30" "Asia/Kolkata" " (SLST)"
           Hin eq_refl).
Defined.

(** C4: when the first stored offset label of the resolved country
    starts with no key of the table, [get_timezone] returns that label
    itself, unchanged; it neither raises nor loses the label. *)
Theorem get_timezone_passes_unmapped_label
    (df : DataFrame) (q label : string) :
  first_timezone df q = Return label ->
  unmapped label = true ->
  get_timezone df q = Return label.
Proof.
  intros Hfirst Hun. unfold get_timezone. rewrite Hfirst. cbn [bind].
  now rewrite (first_startswith_unmapped utc_to_iana label Hun).
Qed.

Lemma get_timezone_passes_unmapped_label_witness :
  first_timezone sample_countries "Nepal" = Return "UTC+05:45" /\
  unmapped "UTC+05:45" = true /\
  get_timezone sample_countries "Nepal" = Return "UTC+05:45".
Proof.
  split; [reflexivity|]. split; [reflexivity|].
  apply (get_timezone_passes_unmapped_label sample_countries "Nepal" "UTC+05:45");
    reflexivity.
Defined.

(** C5, on the code: after a failed load the table is [pd.DataFrame()],
    which has no [name] column, and every call of [get_timezone] raises
    [KeyError: 'name'], not the "not found" [ValueError]. *)
Theorem get_timezone_after_failed_load (e : exception) (q : string) :
  load_country_data (inr e) = empty_DataFrame /\
  get_timezone (load_country_data (inr e)) q = Raise (KeyError "name").
Proof. split; reflexivity. Qed.

(** C6, at its concrete failing input: on [sample_countries] the empty
    query is found in the first record and resolves to its zone. *)
Lemma get_timezone_empty_query_is_found :
  get_timezone sample_countries "" = Return "Asia/Kolkata".
Proof. reflexivity. Qed.

(** C6, amended: on a table that has the [name] column, [get_timezone]
    of the empty string raises the "not found" [ValueError] exactly when
    the table has no rows.  As soon as the table has a row the empty
    query is not reported as not found: it is found in every record that
    has a name, and a table whose records all lack a name raises
    [AttributeError]. *)
Theorem get_timezone_empty_query_not_found_iff
    (df : DataFrame) (names : list cell) :
  df_getitem df "name" = Return names ->
  (get_timezone df "" = Raise (ValueError (not_found_message ""))
   <-> names = [])
  /\ (float64 names = true -> get_timezone df "" = Raise AttributeError).
Proof.
  intros Hnames. split.
  - split.
    + intros H. destruct (float64 names) eqn:Hdtype.
      * apply get_timezone_raises in H.
        rewrite (first_timezone_float64 df "") in H; [discriminate H|].
        now rewrite (float64_column_name df names Hnames).
      * pose proof (proj1 (not_found_plain df "" names eq_refl Hnames Hdtype) H)
          as Hnone.
        clear H. rename Hnone into H.
        destruct names as [|c cs]; [reflexivity|]. exfalso.
        unfold float64 in Hdtype.
        apply forallb_false_exists in Hdtype as (x & Hin & Hx).
        destruct x as [s|]; [|discriminate Hx].
        specialize (H (Str s) Hin). simpl in H.
        unfold contains_ignoring_case in H. simpl in H.
        now rewrite contains_nil in H.
    + intros ->.
      apply (not_found_plain df "" [] eq_refl Hnames eq_refl). intros c [].
  - intros Hfloat. apply get_timezone_raises, first_timezone_float64.
    now rewrite (float64_column_name df names Hnames).
Qed.

Lemma get_timezone_empty_query_not_found_iff_witness :
  df_getitem header_only "name" = Return [] /\
  get_timezone header_only ""
    = Raise (ValueError "Country '' not found in the dataset.").
Proof.
  split; [reflexivity|].
  exact (proj2 (proj1 (get_timezone_empty_query_not_found_iff
                         header_only [] eq_refl)) eq_refl).
Defined.

(* ================================================================== *)
(** ** The overlap calculator: lemmas *)

(** Goals on the quotients and remainders of the clock arithmetic. *)
Ltac clock_arith := Z.div_mod_to_equations; lia.

Lemma to_seconds_of_seconds (t us : Z) : to_seconds (of_seconds t us) = t.
Proof.
  unfold to_seconds, of_seconds. cbn [ordinal hour minute second].
  clock_arith.
Qed.

Lemma to_seconds_plus_seconds (dt : datetime) (k : Z) :
  to_seconds (plus_seconds dt k) = to_seconds dt + k.
Proof. apply to_seconds_of_seconds. Qed.

Lemma of_seconds_to_seconds (d h : Z) :
  0 <= h <= 23 ->
  of_seconds (to_seconds (mkdatetime d h 0 0 0)) 0 = mkdatetime d h 0 0 0.
Proof.
  intros Hh. unfold of_seconds, to_seconds. cbn [ordinal hour minute second].
  f_equal; clock_arith.
Qed.

Lemma plus_seconds_plus_seconds (dt : datetime) (j k : Z) :
  plus_seconds (plus_seconds dt j) k = plus_seconds dt (j + k).
Proof.
  unfold plus_seconds at 1. rewrite to_seconds_plus_seconds.
  unfold plus_seconds, of_seconds. cbn [microsecond].
  now rewrite Z.add_assoc.
Qed.

Lemma astimezone_UTC (a : aware) :
  astimezone a UTC = mkaware (plus_seconds (wall a) (- utcoffset a)) 0.
Proof.
  unfold astimezone, UTC. cbn [fromutc_utcoffset].
  now rewrite plus_seconds_plus_seconds, Z.add_0_r.
Qed.

Lemma timestamp_astimezone (a : aware) (tz : tzinfo) :
  timestamp (astimezone a tz) = timestamp a.
Proof.
  unfold timestamp, astimezone. cbn [wall utcoffset].
  rewrite !to_seconds_plus_seconds.
  unfold plus_seconds, of_seconds. cbn [microsecond]. lia.
Qed.

Lemma normal_time_astimezone (a : aware) (tz : tzinfo) :
  normal_time (astimezone a tz).
Proof.
  unfold normal_time, astimezone, plus_seconds, of_seconds.
  cbn [wall hour minute]. split; clock_arith.
Qed.

Lemma timestamp_py_max (a b : aware) :
  timestamp (py_max a b) = Z.max (timestamp a) (timestamp b).
Proof.
  unfold py_max, aware_lt.
  destruct (Z.ltb_spec (timestamp a) (timestamp b)); lia.
Qed.

Lemma timestamp_py_min (a b : aware) :
  timestamp (py_min a b) = Z.min (timestamp a) (timestamp b).
Proof.
  unfold py_min, aware_lt.
  destruct (Z.ltb_spec (timestamp b) (timestamp a)); lia.
Qed.

(** An interval one of whose two sources is a single instant is empty. *)
Lemma min_le_max_of_eq (a b c d : Z) :
  a = b \/ c = d -> Z.min b d <= Z.max a c.
Proof. lia. Qed.

Lemma aware_lt_false (a b : aware) :
  timestamp b <= timestamp a -> aware_lt a b = false.
Proof. intros H. unfold aware_lt. now apply Z.ltb_ge. Qed.

Lemma aware_lt_spec (a b : aware) :
  aware_lt a b = true <-> timestamp a < timestamp b.
Proof. unfold aware_lt. apply Z.ltb_lt. Qed.

Lemma wake_utc_of_seconds (tz : tzinfo) (now : datetime) (h : Z) :
  wake_utc tz now h = mkaware (of_seconds (wake_seconds tz now h) 0) 0.
Proof.
  unfold wake_utc. rewrite astimezone_UTC. reflexivity.
Qed.

Lemma timestamp_wake_utc (tz : tzinfo) (now : datetime) (h : Z) :
  timestamp (wake_utc tz now h) = wake_seconds tz now h * 1000000.
Proof.
  rewrite wake_utc_of_seconds. unfold timestamp. cbn [wall utcoffset].
  rewrite to_seconds_of_seconds. cbn [microsecond of_seconds]. lia.
Qed.

Lemma wake_utc_inj (tz1 tz2 : tzinfo) (now : datetime) (h1 h2 : Z) :
  timestamp (wake_utc tz1 now h1) = timestamp (wake_utc tz2 now h2) ->
  wake_utc tz1 now h1 = wake_utc tz2 now h2.
Proof.
  rewrite !timestamp_wake_utc, !wake_utc_of_seconds. intros H.
  replace (wake_seconds tz2 now h2) with (wake_seconds tz1 now h1) by lia.
  reflexivity.
Qed.

Lemma py_max_wake_utc_comm (tz1 tz2 : tzinfo) (now : datetime) (h1 h2 : Z) :
  py_max (wake_utc tz2 now h2) (wake_utc tz1 now h1)
  = py_max (wake_utc tz1 now h1) (wake_utc tz2 now h2).
Proof.
  unfold py_max, aware_lt.
  destruct (Z.ltb_spec (timestamp (wake_utc tz2 now h2))
                       (timestamp (wake_utc tz1 now h1)));
  destruct (Z.ltb_spec (timestamp (wake_utc tz1 now h1))
                       (timestamp (wake_utc tz2 now h2)));
  try reflexivity; try lia.
  apply wake_utc_inj. lia.
Qed.

Lemma py_min_wake_utc_comm (tz1 tz2 : tzinfo) (now : datetime) (h1 h2 : Z) :
  py_min (wake_utc tz2 now h2) (wake_utc tz1 now h1)
  = py_min (wake_utc tz1 now h1) (wake_utc tz2 now h2).
Proof.
  unfold py_min, aware_lt.
  destruct (Z.ltb_spec (timestamp (wake_utc tz2 now h2))
                       (timestamp (wake_utc tz1 now h1)));
  destruct (Z.ltb_spec (timestamp (wake_utc tz1 now h1))
                       (timestamp (wake_utc tz2 now h2)));
  try reflexivity; try lia.
  apply wake_utc_inj. lia.
Qed.

Lemma replace_hour_valid (now : datetime) (h : Z) :
  valid_hour h -> replace_hour now h = Return (mkdatetime (ordinal now) h 0 0 0).
Proof.
  intros [H0 H23]. unfold replace_hour.
  apply Z.leb_le in H0, H23. now rewrite H0, H23.
Qed.

(** [find_best_talk_time] once both countries resolve to zones pytz
    knows and the four hours are valid. *)
Lemma find_best_talk_time_resolved
    (df : DataFrame) (tzdb : string -> option tzinfo) (now : datetime)
    (c1 c2 : string) (w1 s1 w2 s2 : Z * Z) (z1 z2 : string) (tz1 tz2 : tzinfo) :
  get_timezone df c1 = Return z1 -> tzdb z1 = Some tz1 ->
  get_timezone df c2 = Return z2 -> tzdb z2 = Some tz2 ->
  valid_window w1 -> valid_window w2 ->
  find_best_talk_time df tzdb now c1 c2 w1 s1 w2 s2 =
  Return
    (if aware_lt (overlap_start tz1 tz2 now w1 w2) (overlap_end tz1 tz2 now w1 w2)
     then success
            (time_range (astimezone (overlap_start tz1 tz2 now w1 w2) tz1)
                        (astimezone (overlap_end tz1 tz2 now w1 w2) tz1))
            (time_range (astimezone (overlap_start tz1 tz2 now w1 w2) tz2)
                        (astimezone (overlap_end tz1 tz2 now w1 w2) tz2))
            (time_range (overlap_start tz1 tz2 now w1 w2)
                        (overlap_end tz1 tz2 now w1 w2))
     else error no_overlap_message).
Proof.
  intros Hz1 Htz1 Hz2 Htz2 [Hw1 Hs1] [Hw2 Hs2].
  unfold find_best_talk_time, pytz_timezone.
  rewrite Hz1. cbn [bind]. rewrite Htz1. cbn [bind].
  rewrite Hz2. cbn [bind]. rewrite Htz2. cbn [bind].
  rewrite !replace_hour_valid by assumption. cbn [bind].
  unfold overlap_start, overlap_end, wake_utc, time_range.
  destruct (aware_lt _ _); reflexivity.
Qed.

Lemma is_HHMM_two_digits (h m : Z) :
  0 <= h < 24 -> 0 <= m < 60 ->
  is_HHMM (two_digits h ++ ":" ++ two_digits m) = true.
Proof.
  intros Hh Hm.
  assert (Hall : forallb
            (fun h => forallb
               (fun m => is_HHMM (two_digits h ++ ":" ++ two_digits m))
               (Z_range 0 60))
            (Z_range 0 24) = true) by (vm_compute; reflexivity).
  pose proof (Z_range_forallb _ _ _ Hall h ltac:(lia)) as Hrow.
  exact (Z_range_forallb _ _ _ Hrow m ltac:(lia)).
Qed.

Lemma is_time_range_time_range (s e : aware) :
  normal_time s -> normal_time e -> is_time_range (time_range s e) = true.
Proof.
  intros [Hsh Hsm] [Heh Hem].
  pose proof (is_HHMM_two_digits _ _ Hsh Hsm) as H1.
  pose proof (is_HHMM_two_digits _ _ Heh Hem) as H2.
  unfold time_range, strftime_HM, two_digits in *.
  cbn [append] in *. unfold is_time_range.
  now rewrite H1, H2.
Qed.

Lemma normal_time_py_max (a b : aware) :
  normal_time a -> normal_time b -> normal_time (py_max a b).
Proof. intros Ha Hb. unfold py_max. now destruct (aware_lt a b). Qed.

Lemma normal_time_py_min (a b : aware) :
  normal_time a -> normal_time b -> normal_time (py_min a b).
Proof. intros Ha Hb. unfold py_min. now destruct (aware_lt b a). Qed.

Lemma normal_time_wake_utc (tz : tzinfo) (now : datetime) (h : Z) :
  normal_time (wake_utc tz now h).
Proof. apply normal_time_astimezone. Qed.

Create HintDb planner.
#[local] Hint Resolve normal_time_astimezone normal_time_wake_utc
  normal_time_py_max normal_time_py_min : planner.

Lemma py_max_same (a : aware) : py_max a a = a.
Proof. unfold py_max. now destruct (aware_lt a a). Qed.

Lemma py_min_same (a : aware) : py_min a a = a.
Proof. unfold py_min. now destruct (aware_lt a a). Qed.

Lemma wake_utc_keeps_offset (tz : tzinfo) (now : datetime) (h o : Z) :
  keeps_offset tz o (mkdatetime (ordinal now) h 0 0 0) ->
  wake_utc tz now h
  = mkaware (plus_seconds (mkdatetime (ordinal now) h 0 0 0) (- o)) 0.
Proof.
  intros [Hloc _]. unfold wake_utc. rewrite astimezone_UTC.
  unfold localize. cbn [wall utcoffset]. now rewrite Hloc.
Qed.

(** Back from UTC to the zone: the wall time [h]:00 it started from. *)
Lemma wake_utc_back (tz : tzinfo) (now : datetime) (h o : Z) :
  valid_hour h ->
  keeps_offset tz o (mkdatetime (ordinal now) h 0 0 0) ->
  astimezone (wake_utc tz now h) tz = mkaware (mkdatetime (ordinal now) h 0 0 0) o.
Proof.
  intros Hh Hkeep. rewrite (wake_utc_keeps_offset tz now h o Hkeep).
  destruct Hkeep as [_ Hback].
  unfold astimezone. cbn [wall utcoffset].
  rewrite !plus_seconds_plus_seconds.
  replace (- o + - 0) with (- o) by lia. rewrite Hback.
  replace (- o + (- 0 + o)) with 0 by lia.
  unfold plus_seconds. cbn [microsecond]. rewrite Z.add_0_r.
  now rewrite of_seconds_to_seconds.
Qed.

Lemma time_range_on_the_hour (d1 d2 h1 h2 o1 o2 : Z) :
  time_range (mkaware (mkdatetime d1 h1 0 0 0) o1)
             (mkaware (mkdatetime d2 h2 0 0 0) o2)
  = window_text (h1, h2).
Proof.
  unfold time_range, window_text, strftime_HM, two_digits.
  cbn [wall hour minute fst snd append]. reflexivity.
Qed.

(** When one person's two hours are equal, [overlap_start] is not
    before [overlap_end]. *)
Lemma overlap_empty (tz1 tz2 : tzinfo) (now : datetime) (w1 w2 : Z * Z) :
  fst w1 = snd w1 \/ fst w2 = snd w2 ->
  aware_lt (overlap_start tz1 tz2 now w1 w2) (overlap_end tz1 tz2 now w1 w2)
  = false.
Proof.
  intros Hempty. apply aware_lt_false.
  unfold overlap_start, overlap_end.
  rewrite timestamp_py_max, timestamp_py_min.
  apply min_le_max_of_eq.
  destruct Hempty as [E|E]; [left|right]; rewrite E; reflexivity.
Qed.

(* ------------------------------------------------------------------ *)
(** *** Claims on the overlap calculator *)

Section ResolvedCall.

(** A call in which both countries resolve to zones pytz knows and the
    four hours are hours of the day. *)
Variables (df : DataFrame) (tzdb : string -> option tzinfo) (now : datetime).
Variables (c1 c2 z1 z2 : string) (tz1 tz2 : tzinfo).
Variables (w1 s1 w2 s2 : Z * Z).

Hypothesis Hz1 : get_timezone df c1 = Return z1.
Hypothesis Htz1 : tzdb z1 = Some tz1.
Hypothesis Hz2 : get_timezone df c2 = Return z2.
Hypothesis Htz2 : tzdb z2 = Some tz2.
Hypothesis Hw1 : valid_window w1.
Hypothesis Hw2 : valid_window w2.

(** C1: once both countries resolve to zones pytz knows and the four
    hours are valid, each wake time is converted to UTC (offset 0, same
    instant as the localized wall time on the date of [now]);
    [overlap_start] is the later start and [overlap_end] the earlier end;
    when [overlap_start < overlap_end] the call returns the [success]
    result whose three texts are [HH:MM to HH:MM] ranges, and otherwise it
    returns the [error] result with the fixed message. *)
Theorem find_best_talk_time_overlap :
  let start := overlap_start tz1 tz2 now w1 w2 in
  let stop := overlap_end tz1 tz2 now w1 w2 in
  (forall tz h,
      utcoffset (wake_utc tz now h) = 0 /\
      timestamp (wake_utc tz now h)
      = timestamp (localize tz (mkdatetime (ordinal now) h 0 0 0))) /\
  timestamp start = Z.max (timestamp (wake_utc tz1 now (fst w1)))
                          (timestamp (wake_utc tz2 now (fst w2))) /\
  timestamp stop = Z.min (timestamp (wake_utc tz1 now (snd w1)))
                         (timestamp (wake_utc tz2 now (snd w2))) /\
  (timestamp start < timestamp stop ->
   find_best_talk_time df tzdb now c1 c2 w1 s1 w2 s2
   = Return (success (time_range (astimezone start tz1) (astimezone stop tz1))
                     (time_range (astimezone start tz2) (astimezone stop tz2))
                     (time_range start stop)) /\
   is_time_range (time_range (astimezone start tz1) (astimezone stop tz1)) = true /\
   is_time_range (time_range (astimezone start tz2) (astimezone stop tz2)) = true /\
   is_time_range (time_range start stop) = true) /\
  (timestamp stop <= timestamp start ->
   find_best_talk_time df tzdb now c1 c2 w1 s1 w2 s2
   = Return (error no_overlap_message)).
Proof.
  intros start stop.
  pose proof (find_best_talk_time_resolved df tzdb now c1 c2 w1 s1 w2 s2
                z1 z2 tz1 tz2 Hz1 Htz1 Hz2 Htz2 Hw1 Hw2) as Hrun.
  fold start stop in Hrun.
  split.
  { intros tz h. split.
    - now rewrite wake_utc_of_seconds.
    - apply timestamp_astimezone. }
  split; [apply timestamp_py_max|]. split; [apply timestamp_py_min|]. split.
  - intros Hlt. apply aware_lt_spec in Hlt. rewrite Hlt in Hrun.
    split; [exact Hrun|].
    assert (normal_time start) by (unfold start, overlap_start; auto with planner).
    assert (normal_time stop) by (unfold stop, overlap_end; auto with planner).
    repeat split; apply is_time_range_time_range; auto with planner.
  - intros Hle. rewrite (aware_lt_false start stop Hle) in Hrun. exact Hrun.
Qed.

(** C7: with both countries resolved and valid hours, exchanging the two
    persons leaves [overlap_start] and [overlap_end] (the UTC interval)
    unchanged, and the exchanged call returns the result of the original
    call with the two local ranges exchanged: the same outcome and the
    same UTC range. *)
Theorem find_best_talk_time_symmetric :
  overlap_start tz2 tz1 now w2 w1 = overlap_start tz1 tz2 now w1 w2 /\
  overlap_end tz2 tz1 now w2 w1 = overlap_end tz1 tz2 now w1 w2 /\
  exists r,
    find_best_talk_time df tzdb now c1 c2 w1 s1 w2 s2 = Return r /\
    find_best_talk_time df tzdb now c2 c1 w2 s2 w1 s1 = Return (swap_persons r).
Proof.
  assert (Hstart : overlap_start tz2 tz1 now w2 w1 = overlap_start tz1 tz2 now w1 w2)
    by apply py_max_wake_utc_comm.
  assert (Hend : overlap_end tz2 tz1 now w2 w1 = overlap_end tz1 tz2 now w1 w2)
    by apply py_min_wake_utc_comm.
  split; [exact Hstart|]. split; [exact Hend|].
  rewrite (find_best_talk_time_resolved df tzdb now c1 c2 w1 s1 w2 s2
             z1 z2 tz1 tz2 Hz1 Htz1 Hz2 Htz2 Hw1 Hw2).
  rewrite (find_best_talk_time_resolved df tzdb now c2 c1 w2 s2 w1 s1
             z2 z1 tz2 tz1 Hz2 Htz2 Hz1 Htz1 Hw2 Hw1).
  rewrite Hstart, Hend.
  eexists. split; [reflexivity|].
  destruct (aware_lt _ _); reflexivity.
Qed.

(** C10: with both countries resolved and valid hours, if either
    person's pair has equal components the call returns the [error]
    result with the fixed message, whatever the zones, the other window
    and the date. *)
Theorem find_best_talk_time_empty_window :
  fst w1 = snd w1 \/ fst w2 = snd w2 ->
  find_best_talk_time df tzdb now c1 c2 w1 s1 w2 s2
  = Return (error no_overlap_message).
Proof.
  intros Hempty.
  rewrite (find_best_talk_time_resolved df tzdb now c1 c2 w1 s1 w2 s2
             z1 z2 tz1 tz2 Hz1 Htz1 Hz2 Htz2 Hw1 Hw2).
  now rewrite (overlap_empty tz1 tz2 now w1 w2 Hempty).
Qed.

End ResolvedCall.

Lemma find_best_talk_time_overlap_witness :
  find_best_talk_time sample_countries sample_tz_database sample_now
    "India" "Japan" (7, 23) (7, 23) (7, 23) (7, 23)
  = Return (success "07:00 to 19:30" "10:30 to 23:00" "01:30 to 14:00").
Proof.
  refine (proj1 (proj1 (proj2 (proj2 (proj2
    (find_best_talk_time_overlap sample_countries sample_tz_database
       sample_now "India" "Japan" "Asia/Kolkata" "Asia/Tokyo"
       (fixed_offset 19800) (fixed_offset 32400)
       (7, 23) (7, 23) (7, 23) (7, 23)
       eq_refl eq_refl eq_refl eq_refl _ _)))) _));
    vm_compute; intuition discriminate.
Defined.

Lemma find_best_talk_time_symmetric_witness :
  exists r,
    find_best_talk_time sample_countries sample_tz_database sample_now
      "India" "Japan" (7, 23) (7, 23) (9, 21) (9, 21) = Return r /\
    find_best_talk_time sample_countries sample_tz_database sample_now
      "Japan" "India" (9, 21) (9, 21) (7, 23) (7, 23) = Return (swap_persons r).
Proof.
  refine (proj2 (proj2
    (find_best_talk_time_symmetric sample_countries sample_tz_database
       sample_now "India" "Japan" "Asia/Kolkata" "Asia/Tokyo"
       (fixed_offset 19800) (fixed_offset 32400)
       (7, 23) (7, 23) (9, 21) (9, 21)
       eq_refl eq_refl eq_refl eq_refl _ _)));
    vm_compute; intuition discriminate.
Defined.

Lemma find_best_talk_time_empty_window_witness :
  find_best_talk_time sample_countries sample_tz_database sample_now
    "India" "Japan" (9, 9) (9, 9) (0, 23) (0, 23)
  = Return (error no_overlap_message).
Proof.
  apply (find_best_talk_time_empty_window sample_countries sample_tz_database
           sample_now "India" "Japan" "Asia/Kolkata" "Asia/Tokyo"
           (fixed_offset 19800) (fixed_offset 32400)
           (9, 9) (9, 9) (0, 23) (0, 23));
    vm_compute; intuition discriminate.
Defined.

(** C8, at its concrete failing input: both persons in Japan with the
    window 7 to 23.  The call succeeds and both local ranges are the
    window, but the UTC range is [22:00 to 14:00]. *)
Lemma find_best_talk_time_same_window_utc_differs :
  get_timezone sample_countries "Japan" = Return "Asia/Tokyo" /\
  find_best_talk_time sample_countries sample_tz_database sample_now
    "Japan" "Japan" (7, 23) (7, 23) (7, 23) (7, 23)
  = Return (success "07:00 to 23:00" "07:00 to 23:00" "22:00 to 14:00") /\
  window_text (7, 23) = "07:00 to 23:00" /\
  String.eqb "22:00 to 14:00" (window_text (7, 23)) = false.
Proof. repeat split. Qed.

(** On the day Europe/Paris skips the hour from 02:00 to 03:00, the
    window 2 to 3 in that zone is a single instant, and the window 2 to 5
    comes back as 03:00 to 05:00: a wall time that the zone skips breaks
    both the success and the equality of the local ranges. *)
Lemma find_best_talk_time_skipped_hour :
  find_best_talk_time sample_countries sample_tz_database spring_now
    "Germany" "Germany" (2, 3) (2, 3) (2, 3) (2, 3)
  = Return (error no_overlap_message) /\
  find_best_talk_time sample_countries sample_tz_database spring_now
    "Germany" "Germany" (2, 5) (2, 5) (2, 5) (2, 5)
  = Return (success "03:00 to 05:00" "03:00 to 05:00" "01:00 to 03:00").
Proof. split; reflexivity. Qed.

(** C8, amended: when both countries resolve to the same zone, both
    persons have the same window with [wake_hour < sleep_hour], and
    both ends of the window are wall times the zone has on that date
    (the zone keeps an offset [ow] at [wake_hour]:00 and an offset [os]
    at [sleep_hour]:00, with the wake instant before the sleep instant),
    the call returns [success]; the two local ranges are exactly
    [wake_hour:00 to sleep_hour:00]; the UTC range is the window with
    its ends moved by [- ow] and [- os], and it equals the input window
    when both offsets are 0.  The offset may change inside the window. *)
Theorem find_best_talk_time_same_window
    (df : DataFrame) (tzdb : string -> option tzinfo) (now : datetime)
    (c1 c2 : string) (w s1 s2 : Z * Z) (z : string) (tz : tzinfo) (ow os : Z) :
  get_timezone df c1 = Return z ->
  get_timezone df c2 = Return z ->
  tzdb z = Some tz ->
  valid_window w ->
  fst w < snd w ->
  keeps_offset tz ow (mkdatetime (ordinal now) (fst w) 0 0 0) ->
  keeps_offset tz os (mkdatetime (ordinal now) (snd w) 0 0 0) ->
  os - ow < (snd w - fst w) * 3600 ->
  find_best_talk_time df tzdb now c1 c2 w s1 w s2
  = Return (success (window_text w) (window_text w)
              (time_range (wake_utc tz now (fst w)) (wake_utc tz now (snd w)))) /\
  wall (wake_utc tz now (fst w))
  = plus_seconds (mkdatetime (ordinal now) (fst w) 0 0 0) (- ow) /\
  wall (wake_utc tz now (snd w))
  = plus_seconds (mkdatetime (ordinal now) (snd w) 0 0 0) (- os) /\
  (ow = 0 -> os = 0 ->
   time_range (wake_utc tz now (fst w)) (wake_utc tz now (snd w)) = window_text w).
Proof.
  intros Hz1 Hz2 Htz Hw Hlt Hkw Hks Horder.
  pose proof (wake_utc_keeps_offset tz now (fst w) ow Hkw) as Hutc_w.
  pose proof (wake_utc_keeps_offset tz now (snd w) os Hks) as Hutc_s.
  split; [|split; [now rewrite Hutc_w | split; [now rewrite Hutc_s|]]].
  - rewrite (find_best_talk_time_resolved df tzdb now c1 c2 w s1 w s2
               z z tz tz Hz1 Htz Hz2 Htz Hw Hw).
    unfold overlap_start, overlap_end. rewrite py_max_same, py_min_same.
    assert (Hlt' : aware_lt (wake_utc tz now (fst w)) (wake_utc tz now (snd w)) = true).
    { apply aware_lt_spec. rewrite !timestamp_wake_utc. unfold wake_seconds.
      rewrite (proj1 Hkw), (proj1 Hks). unfold to_seconds.
      cbn [ordinal hour minute second]. lia. }
    rewrite Hlt'.
    rewrite (wake_utc_back tz now (fst w) ow (proj1 Hw) Hkw).
    rewrite (wake_utc_back tz now (snd w) os (proj2 Hw) Hks).
    rewrite time_range_on_the_hour. now destruct w.
  - intros -> ->. rewrite Hutc_w, Hutc_s.
    destruct Hw as [Hw Hs]. unfold plus_seconds. cbn [microsecond].
    rewrite !Z.add_0_r, !of_seconds_to_seconds by assumption.
    rewrite time_range_on_the_hour. now destruct w.
Qed.

Lemma find_best_talk_time_same_window_witness :
  find_best_talk_time sample_countries sample_tz_database spring_now
    "Germany" "germany" (1, 5) (0, 0) (1, 5) (1, 1)
  = Return (success "01:00 to 05:00" "01:00 to 05:00" "00:00 to 03:00").
Proof.
  refine (proj1
    (find_best_talk_time_same_window sample_countries sample_tz_database
       spring_now "Germany" "germany" (1, 5) (0, 0) (1, 1)
       "Europe/Paris" (spring_forward 738976) 3600 7200
       eq_refl eq_refl eq_refl _ _ _ _ _));
    vm_compute; intuition discriminate.
Defined.

(** C9: the result of [find_best_talk_time] does not depend on
    [sleep_hours1] and [sleep_hours2]: two calls that differ only there
    return the same outcome. *)
Theorem find_best_talk_time_ignores_sleep_hours
    (df : DataFrame) (tzdb : string -> option tzinfo) (now : datetime)
    (c1 c2 : string) (w1 w2 s1 s2 s1' s2' : Z * Z) :
  find_best_talk_time df tzdb now c1 c2 w1 s1 w2 s2
  = find_best_talk_time df tzdb now c1 c2 w1 s1' w2 s2'.
Proof. reflexivity. Qed.

(* ================================================================== *)
(** ** Further properties of the resolver *)

Lemma cell_contains_lower (q1 q2 : string) (c : cell) :
  Re.lower q1 = Re.lower q2 -> cell_contains q1 c = cell_contains q2 c.
Proof.
  intros H. destruct c as [s|]; [|reflexivity].
  unfold cell_contains, contains_ignoring_case. now rewrite H.
Qed.

Lemma filter_none {A : Type} (f : A -> bool) (xs : list A) :
  (forall x, In x xs -> f x = false) -> filter f xs = [].
Proof.
  induction xs as [|x xs IH]; intros H; simpl; [reflexivity|].
  rewrite (H x (or_introl eq_refl)). apply IH. intros y Hy. apply H. now right.
Qed.

Lemma startswith_refl (s : string) : startswith s s = true.
Proof. induction s as [|c s IH]; simpl; [reflexivity|]. now rewrite Ascii.eqb_refl. Qed.

Lemma contains_ignoring_case_refl (s : string) : contains_ignoring_case s s = true.
Proof. apply contains_startswith, startswith_refl. Qed.

(** [get_timezone] on a plain-text query and a text column of names, by
    the records the query is found in. *)
Lemma get_timezone_plain (df : DataFrame) (q : string) (i : nat) :
  get_loc "name" (columns df) = Some i ->
  float64_column df "name" = false ->
  plain_text q = true ->
  get_timezone df q =
  match filter (fun r => cell_contains q (nth i r NaN)) (rows df) with
  | [] => Raise (ValueError (not_found_message q))
  | r :: _ => zone_of_record df r
  end.
Proof.
  intros Hi Hobj Hq. unfold get_timezone, zone_of_record.
  rewrite (first_timezone_plain df q i Hi Hobj Hq).
  destruct (filter _ (rows df)); reflexivity.
Qed.

(** A column in which some record holds a string is a text column. *)
Lemma float64_column_text
    (df : DataFrame) (label : string) (j : nat) (r : list cell) (t : string) :
  get_loc label (columns df) = Some j ->
  In r (rows df) -> nth j r NaN = Str t ->
  float64_column df label = false.
Proof.
  intros Hj Hin Ht. unfold float64_column. rewrite Hj.
  apply (float64_with_text _ t). apply in_map_iff. now exists r.
Qed.

(** A column of a table with rows in which every cell is missing is a
    [float64] column. *)
Lemma float64_column_all_missing
    (df : DataFrame) (label : string) (j : nat) (r : list cell) :
  get_loc label (columns df) = Some j ->
  In r (rows df) ->
  (forall r', In r' (rows df) -> nth j r' NaN = NaN) ->
  float64_column df label = true.
Proof.
  intros Hj Hin Hall. unfold float64_column, float64. rewrite Hj.
  destruct (rows df) as [|r0 rs] eqn:Hrows; [destruct Hin|].
  rewrite <- Hrows in *. rewrite Hrows at 1. cbn [map].
  apply forallb_forall. intros c Hc.
  apply in_map_iff in Hc as (r' & <- & Hr'). now rewrite (Hall r' Hr').
Qed.

(** A record the query is found in has a name, so the names are text. *)
Lemma found_in_text_column
    (df : DataFrame) (q : string) (i : nat) (r : list cell) :
  get_loc "name" (columns df) = Some i ->
  In r (rows df) -> cell_contains q (nth i r NaN) = true ->
  float64_column df "name" = false.
Proof.
  intros Hi Hin Hc. destruct (nth i r NaN) as [s|] eqn:Hs; [|discriminate Hc].
  exact (float64_column_text df "name" i r s Hi Hin Hs).
Qed.

(** The only [ValueError] of the steps after the selection is the one
    [eval] raises on a cell of a [float64] column. *)
Lemma zone_of_record_ValueError (df : DataFrame) (r : list cell) (msg : string) :
  zone_of_record df r = Raise (ValueError msg) ->
  float64_column df "timezones" = true /\ msg = PyEval.null_bytes_message.
Proof.
  unfold zone_of_record. intros H.
  match type of H with
  | bind ?m _ = _ => destruct m as [t|e|] eqn:Hm; cbn [bind] in H; try discriminate H
  end.
  injection H as ->.
  apply later_steps_ValueError in Hm as [Hm|Hm]; [|exact Hm].
  destruct (get_loc "timezones" (columns df)); discriminate Hm.
Qed.

(** The steps after the selection never raise the "not found" error. *)
Lemma zone_of_record_not_not_found (df : DataFrame) (r : list cell) (q : string) :
  zone_of_record df r <> Raise (ValueError (not_found_message q)).
Proof.
  intros H. apply zone_of_record_ValueError in H as [_ H].
  symmetry in H. exact (not_found_message_neq q H).
Qed.

(** X1: matching ignores the case of the query.  Two plain-text queries
    that differ only in case either both fail, each with the "not found"
    error that names its own spelling, or give the same outcome. *)
Theorem get_timezone_ignores_case (df : DataFrame) (q1 q2 : string) :
  plain_text q1 = true ->
  plain_text q2 = true ->
  Re.lower q1 = Re.lower q2 ->
  (get_timezone df q1 = Raise (ValueError (not_found_message q1)) /\
   get_timezone df q2 = Raise (ValueError (not_found_message q2)))
  \/ (get_timezone df q1 = get_timezone df q2 /\
      get_timezone df q1 <> Raise (ValueError (not_found_message q1))).
Proof.
  intros H1 H2 Hlow.
  destruct (get_loc "name" (columns df)) as [i|] eqn:Hi.
  - destruct (float64_column df "name") eqn:Hdtype.
    + right. unfold get_timezone.
      rewrite !(first_timezone_float64 df _ Hdtype).
      split; [reflexivity | discriminate].
    + rewrite (get_timezone_plain df q1 i Hi Hdtype H1),
              (get_timezone_plain df q2 i Hi Hdtype H2).
      rewrite (filter_ext _ (fun r => cell_contains q2 (nth i r NaN)))
        by (intros r; apply cell_contains_lower, Hlow).
      destruct (filter _ (rows df)) as [|r rs]; [left; now split|right].
      split; [reflexivity | apply zone_of_record_not_not_found].
  - right. unfold get_timezone, first_timezone, df_getitem. rewrite Hi.
    split; [reflexivity | discriminate].
Qed.

Lemma get_timezone_ignores_case_witness :
  get_timezone sample_countries "JAPAN" = get_timezone sample_countries "japan" /\
  get_timezone sample_countries "JAPAN" = Return "Asia/Tokyo".
Proof.
  destruct (get_timezone_ignores_case sample_countries "JAPAN" "japan"
              eq_refl eq_refl eq_refl) as [[H _]|[H _]].
  - discriminate H.
  - split; [exact H | reflexivity].
Defined.

(** X2: the first match wins.  When a plain-text query is found in the
    record [r] and in no record before it, and the [timezones] cell of
    [r] is not missing, [get_timezone] gives what it gives on the table
    that holds [r] alone: the records before [r] and all the records
    after it play no part. *)
Theorem get_timezone_first_match
    (df : DataFrame) (q : string) (i : nat)
    (before after : list (list cell)) (r : list cell) :
  plain_text q = true ->
  get_loc "name" (columns df) = Some i ->
  rows df = (before ++ r :: after)%list ->
  (forall r', In r' before -> cell_contains q (nth i r' NaN) = false) ->
  cell_contains q (nth i r NaN) = true ->
  (forall j, get_loc "timezones" (columns df) = Some j -> nth j r NaN <> NaN) ->
  get_timezone df q = get_timezone (mkDataFrame (columns df) [r]) q.
Proof.
  intros Hq Hi Hrows Hbefore Hr Hcell.
  assert (Hin : In r (rows df)) by (rewrite Hrows; apply in_elt).
  rewrite (get_timezone_plain df q i Hi
             (found_in_text_column df q i r Hi Hin Hr) Hq).
  rewrite (get_timezone_plain (mkDataFrame (columns df) [r]) q i Hi
             (found_in_text_column (mkDataFrame (columns df) [r]) q i r Hi
                (or_introl eq_refl) Hr) Hq).
  cbn [rows]. rewrite Hrows, filter_app, (filter_none _ before Hbefore).
  simpl. rewrite Hr.
  unfold zone_of_record. cbn [columns].
  destruct (get_loc "timezones" (columns df)) as [j|] eqn:Hj; [|reflexivity].
  cbn [bind]. specialize (Hcell j eq_refl).
  destruct (nth j r NaN) as [t|]; [reflexivity | now destruct Hcell].
Qed.

Lemma get_timezone_first_match_witness :
  get_timezone
    (mkDataFrame ["name"; "timezones"]
       [ [Str "Japan"; Str "['UTC+09:00']"];
         [Str "British Indian Ocean Territory"; Str "['UTC+06:00']"];
         [Str "India"; Str "['UTC+05:30']"] ])
    "India"
  = Return "Asia/Dhaka".
Proof.
  rewrite (get_timezone_first_match
             (mkDataFrame ["name"; "timezones"]
                [ [Str "Japan"; Str "['UTC+09:00']"];
                  [Str "British Indian Ocean Territory"; Str "['UTC+06:00']"];
                  [Str "India"; Str "['UTC+05:30']"] ])
             "India" 0
             [ [Str "Japan"; Str "['UTC+09:00']"] ]
             [ [Str "India"; Str "['UTC+05:30']"] ]
             [Str "British Indian Ocean Territory"; Str "['UTC+06:00']"]
             eq_refl eq_refl eq_refl).
  - reflexivity.
  - intros r' [<-|[]]. reflexivity.
  - reflexivity.
  - intros j Hj. injection Hj as <-. discriminate.
Defined.

(** The mask of a plain-text query on a text column. *)
Lemma str_contains_plain (names : list cell) (q : string) :
  float64 names = false ->
  plain_text q = true ->
  str_contains names q = Return (map (cell_contains q) names).
Proof.
  intros Hobj Hq. unfold str_contains.
  rewrite Hobj, (compile_plain_text q Hq). cbn [bind]. f_equal.
  apply map_ext. intros [s|]; simpl; [apply search_literals | reflexivity].
Qed.

(** A stored plain-text name is found in its own record. *)
Lemma stored_name_is_selected
    (df : DataFrame) (i : nat) (s : string) :
  get_loc "name" (columns df) = Some i ->
  In (Str s) (map (fun r => nth i r NaN) (rows df)) ->
  exists r rs,
    filter (fun r => cell_contains s (nth i r NaN)) (rows df) = r :: rs.
Proof.
  intros Hi Hin. apply in_map_iff in Hin as (r0 & Hr0 & Hin).
  destruct (filter _ (rows df)) as [|r rs] eqn:Hf; [|now exists r, rs].
  assert (In r0 []) as [].
  rewrite <- Hf. apply filter_In. split; [exact Hin|].
  rewrite Hr0. apply contains_ignoring_case_refl.
Qed.

(** X3: a name that is stored in the table and has no
    regular-expression operator is found when it is looked up: the
    selection of line 34 has a first record, so [country_data.empty] is
    false and the "not found" branch is not taken, and the outcome of the
    call is what the later steps make of that record. *)
Theorem get_timezone_finds_stored_name
    (df : DataFrame) (names : list cell) (s : string) :
  df_getitem df "name" = Return names ->
  In (Str s) names ->
  plain_text s = true ->
  exists mask r rs,
    str_contains names s = Return mask /\
    select (rows df) mask = r :: rs /\
    df_empty (df_mask df mask) = false /\
    get_timezone df s = zone_of_record df r.
Proof.
  intros Hnames Hin Hs.
  pose proof (float64_with_text names s Hin) as Hobj.
  pose proof Hobj as Hcol.
  rewrite <- (float64_column_name df names Hnames) in Hcol.
  unfold df_getitem in Hnames.
  destruct (get_loc "name" (columns df)) as [i|] eqn:Hi; [|discriminate].
  injection Hnames as <-.
  destruct (stored_name_is_selected df i s Hi Hin) as (r & rs & Hsel).
  exists (map (cell_contains s) (map (fun r => nth i r NaN) (rows df))), r, rs.
  assert (Hmask : select (rows df)
                    (map (cell_contains s) (map (fun r => nth i r NaN) (rows df)))
                  = r :: rs).
  { rewrite map_map.
    rewrite (select_map (fun r => cell_contains s (nth i r NaN))). exact Hsel. }
  split; [exact (str_contains_plain _ s Hobj Hs)|].
  split; [exact Hmask|]. split.
  - unfold df_empty, df_mask. cbn [columns rows]. rewrite Hmask.
    destruct (columns df); [discriminate Hi | reflexivity].
  - now rewrite (get_timezone_plain df s i Hi Hcol Hs), Hsel.
Qed.

Lemma get_timezone_finds_stored_name_witness :
  exists mask r rs,
    str_contains
      [Str "India"; Str "Japan"; Str "Nepal"; Str "Sri Lanka"; Str "Germany"]
      "Sri Lanka" = Return mask /\
    select (rows sample_countries) mask = r :: rs /\
    df_empty (df_mask sample_countries mask) = false /\
    get_timezone sample_countries "Sri Lanka" = zone_of_record sample_countries r.
Proof.
  apply (get_timezone_finds_stored_name sample_countries
           [Str "India"; Str "Japan"; Str "Nepal"; Str "Sri Lanka"; Str "Germany"]
           "Sri Lanka" eq_refl).
  - do 3 right. left. reflexivity.
  - reflexivity.
Defined.

(** X4: what a selected record with a bad [timezones] field does.  When
    a plain-text query is found and [r] is the first record it is found
    in: a table without the [timezones] column raises [KeyError]; a
    missing cell raises [TypeError] (from [eval]) when some record of the
    table has a [timezones] text, and the [ValueError] of [eval] on a
    [numpy.float64] when no record has one; the empty list [[]] raises
    [IndexError] (from [[0]]).  None of them is the "not found"
    [ValueError]. *)
Theorem get_timezone_bad_timezones_field
    (df : DataFrame) (q : string) (i : nat)
    (r : list cell) (rs : list (list cell)) :
  plain_text q = true ->
  get_loc "name" (columns df) = Some i ->
  filter (fun r => cell_contains q (nth i r NaN)) (rows df) = r :: rs ->
  (get_loc "timezones" (columns df) = None ->
   get_timezone df q = Raise (KeyError "timezones")) /\
  (forall j r' t,
      get_loc "timezones" (columns df) = Some j ->
      nth j r NaN = NaN ->
      In r' (rows df) -> nth j r' NaN = Str t ->
      get_timezone df q = Raise TypeError) /\
  (forall j,
      get_loc "timezones" (columns df) = Some j ->
      (forall r', In r' (rows df) -> nth j r' NaN = NaN) ->
      get_timezone df q = Raise (ValueError PyEval.null_bytes_message)) /\
  (forall j,
      get_loc "timezones" (columns df) = Some j ->
      nth j r NaN = Str "[]" ->
      get_timezone df q = Raise IndexError) /\
  (forall e,
      get_timezone df q = Raise e -> e <> ValueError (not_found_message q)).
Proof.
  intros Hq Hi Hsel.
  assert (Hin : In r (filter (fun r => cell_contains q (nth i r NaN)) (rows df)))
    by (rewrite Hsel; now left).
  apply filter_In in Hin as [Hin Hc].
  rewrite (get_timezone_plain df q i Hi
             (found_in_text_column df q i r Hi Hin Hc) Hq), Hsel.
  split; [|split; [|split; [|split]]].
  - unfold zone_of_record. intros ->. reflexivity.
  - intros j r' t Hj Hr Hin' Ht. unfold zone_of_record.
    rewrite (float64_column_text df "timezones" j r' t Hj Hin' Ht).
    rewrite Hj. cbn [bind]. rewrite Hr. reflexivity.
  - intros j Hj Hall. unfold zone_of_record.
    rewrite (float64_column_all_missing df "timezones" j r Hj Hin Hall).
    rewrite Hj. cbn [bind]. rewrite (Hall r Hin). reflexivity.
  - intros j Hj Hr. unfold zone_of_record.
    rewrite Hj. cbn [bind]. rewrite Hr.
    destruct (float64_column df "timezones"); reflexivity.
  - intros e He ->. exact (zone_of_record_not_not_found df r q He).
Qed.

Lemma get_timezone_bad_timezones_field_witness :
  get_timezone (mkDataFrame ["name"] [[Str "Japan"]]) "japan"
    = Raise (KeyError "timezones") /\
  get_timezone (mkDataFrame ["name"; "timezones"]
                  [[Str "Japan"; NaN]; [Str "India"; Str "['UTC+05:30']"]]) "japan"
    = Raise TypeError /\
  get_timezone (mkDataFrame ["name"; "timezones"] [[Str "Japan"; NaN]]) "japan"
    = Raise (ValueError "source code string cannot contain null bytes") /\
  get_timezone (mkDataFrame ["name"; "timezones"] [[Str "Japan"; Str "[]"]]) "japan"
    = Raise IndexError.
Proof.
  split; [|split; [|split]].
  - exact (proj1 (get_timezone_bad_timezones_field
                    (mkDataFrame ["name"] [[Str "Japan"]]) "japan" 0
                    [Str "Japan"] [] eq_refl eq_refl eq_refl) eq_refl).
  - exact (proj1 (proj2 (get_timezone_bad_timezones_field
                    (mkDataFrame ["name"; "timezones"]
                       [[Str "Japan"; NaN]; [Str "India"; Str "['UTC+05:30']"]])
                    "japan" 0 [Str "Japan"; NaN] [] eq_refl eq_refl eq_refl))
             1%nat [Str "India"; Str "['UTC+05:30']"] "['UTC+05:30']"
             eq_refl eq_refl (or_intror (or_introl eq_refl)) eq_refl).
  - apply (proj1 (proj2 (proj2 (get_timezone_bad_timezones_field
                    (mkDataFrame ["name"; "timezones"] [[Str "Japan"; NaN]])
                    "japan" 0 [Str "Japan"; NaN] [] eq_refl eq_refl eq_refl)))
             1%nat eq_refl).
    intros r' [<-|[]]. reflexivity.
  - exact (proj1 (proj2 (proj2 (proj2 (get_timezone_bad_timezones_field
                    (mkDataFrame ["name"; "timezones"] [[Str "Japan"; Str "[]"]])
                    "japan" 0 [Str "Japan"; Str "[]"] [] eq_refl eq_refl eq_refl))))
             1%nat eq_refl eq_refl).
Defined.

(** The loop returns the zone of a key the label starts with, or the
    label when it starts with none. *)
Lemma first_startswith_cases (items : list (string * string)) (label : string) :
  (exists k, In (k, first_startswith items label) items
             /\ startswith label k = true)
  \/ (forallb (fun kz => negb (startswith label (fst kz))) items = true
      /\ first_startswith items label = label).
Proof.
  induction items as [|[k z] items IH]; simpl.
  - right. auto.
  - destruct (startswith label k) eqn:Hk.
    + left. exists k. auto.
    + destruct IH as [(k' & Hin & Hk')|[Hall Heq]].
      * left. exists k'. auto.
      * right. auto.
Qed.

(** X5: the only zone ids [get_timezone] returns are the zones of the
    table and raw offset labels: a returned zone is either mapped from a
    key that the first stored label starts with, or it is that label
    itself, which then starts with no key. *)
Theorem get_timezone_returns_zone_or_label
    (df : DataFrame) (q z : string) :
  get_timezone df q = Return z ->
  exists label,
    first_timezone df q = Return label /\
    ((exists k, In (k, z) utc_to_iana /\ startswith label k = true)
     \/ (unmapped label = true /\ z = label)).
Proof.
  unfold get_timezone. intros H.
  destruct (first_timezone df q) as [label|e|]; cbn [bind] in H; try discriminate.
  injection H as <-. exists label. split; [reflexivity|].
  destruct (first_startswith_cases utc_to_iana label) as [(k & Hin & Hk)|[Hall Heq]].
  - left. exists k. auto.
  - right. auto.
Qed.

Lemma get_timezone_returns_zone_or_label_witness :
  exists label,
    first_timezone sample_countries "Sri" = Return label /\
    ((exists k, In (k, "Asia/Kolkata") utc_to_iana /\ startswith label k = true)
     \/ (unmapped label = true /\ "Asia/Kolkata" = label)).
Proof.
  exact (get_timezone_returns_zone_or_label sample_countries "Sri" "Asia/Kolkata"
           eq_refl).
Defined.

Lemma startswith_same_length (l k1 k2 : string) :
  startswith l k1 = true -> startswith l k2 = true ->
  String.length k1 = String.length k2 -> k1 = k2.
Proof.
  revert l k2. induction k1 as [|a k1 IH]; intros l [|b k2]; simpl;
    try discriminate; try reflexivity.
  destruct l as [|c l]; [discriminate|].
  intros H1 H2 Hlen.
  apply andb_true_iff in H1 as [Ha H1]. apply andb_true_iff in H2 as [Hb H2].
  apply Ascii.eqb_eq in Ha, Hb. subst a b.
  f_equal. apply (IH l k2 H1 H2). now injection Hlen.
Qed.

Lemma first_startswith_hit
    (n : nat) (items : list (string * string)) (label k z : string) :
  keys_of_length n items -> functional items ->
  In (k, z) items -> startswith label k = true ->
  first_startswith items label = z.
Proof.
  induction items as [|[k0 z0] items IH]; intros Hlen Hfun Hin Hk; [destruct Hin|].
  simpl. destruct (startswith label k0) eqn:Hk0.
  - assert (k0 = k) as ->.
    { apply (startswith_same_length label); [exact Hk0 | exact Hk|].
      rewrite (Hlen k0 z0 (or_introl eq_refl)). symmetry. exact (Hlen k z Hin). }
    apply (Hfun k); [now left | exact Hin].
  - apply IH.
    + intros k' z' H. apply (Hlen k' z'). now right.
    + intros k' z1 z2 H1 H2. apply (Hfun k'); now right.
    + destruct Hin as [E|Hin]; [|exact Hin].
      injection E as -> ->. congruence.
    + exact Hk.
Qed.

Lemma utc_to_iana_keys_of_length : keys_of_length 9 utc_to_iana.
Proof.
  assert (H : forallb (fun kz => Nat.eqb (String.length (fst kz)) 9) utc_to_iana = true)
    by reflexivity.
  intros k z Hin. rewrite forallb_forall in H.
  apply Nat.eqb_eq. exact (H (k, z) Hin).
Qed.

Lemma utc_to_iana_functional : functional utc_to_iana.
Proof.
  assert (H : forallb
            (fun p => forallb
               (fun p' => implb (String.eqb (fst p) (fst p'))
                                (String.eqb (snd p) (snd p')))
               utc_to_iana)
            utc_to_iana = true) by (vm_compute; reflexivity).
  intros k z z' Hin Hin'. rewrite forallb_forall in H.
  pose proof (H (k, z) Hin) as Hrow. rewrite forallb_forall in Hrow.
  specialize (Hrow (k, z') Hin'). cbn [fst snd] in Hrow.
  rewrite String.eqb_refl in Hrow. now apply String.eqb_eq.
Qed.

(** X6: the order of the entries of [utc_to_iana] does not matter.  A
    label starts with at most one key (the keys have 9 characters each
    and are distinct), so the loop over any rearrangement of the table
    returns what the loop over the table returns. *)
Theorem first_startswith_any_order
    (items : list (string * string)) (label : string) :
  Permutation items utc_to_iana ->
  first_startswith items label = first_startswith utc_to_iana label.
Proof.
  intros Hperm.
  assert (Hlen : keys_of_length 9 items).
  { intros k z Hin. apply (utc_to_iana_keys_of_length k z).
    exact (Permutation_in _ Hperm Hin). }
  assert (Hfun : functional items).
  { intros k z z' H1 H2. apply (utc_to_iana_functional k).
    - exact (Permutation_in _ Hperm H1).
    - exact (Permutation_in _ Hperm H2). }
  destruct (first_startswith_cases utc_to_iana label) as [(k & Hin & Hk)|[Hall Heq]].
  - apply (first_startswith_hit 9 items label k); auto.
    exact (Permutation_in _ (Permutation_sym Hperm) Hin).
  - rewrite Heq. apply first_startswith_unmapped.
    apply forallb_forall. intros kz Hkz. rewrite forallb_forall in Hall.
    apply Hall. exact (Permutation_in _ Hperm Hkz).
Qed.

Lemma first_startswith_any_order_witness :
  first_startswith (rev utc_to_iana) "UTC+05:30 (IST)"
  = first_startswith utc_to_iana "UTC+05:30 (IST)".
Proof.
  apply (first_startswith_any_order (rev utc_to_iana) "UTC+05:30 (IST)").
  apply Permutation_sym, Permutation_rev.
Defined.

(* ================================================================== *)
(** ** Further properties of the overlap calculator *)

(** X7: a country whose first stored label is in no way mapped stops the
    call.  If the label starts with no key of the table and pytz knows
    no zone of that name, [find_best_talk_time] raises
    [UnknownTimeZoneError] with the raw label: for the first country
    whatever the second is, and for the second once the first is
    resolved. *)
Theorem find_best_talk_time_unknown_zone
    (df : DataFrame) (tzdb : string -> option tzinfo) (now : datetime)
    (c1 c2 label : string) (w1 s1 w2 s2 : Z * Z) :
  unmapped label = true ->
  tzdb label = None ->
  (first_timezone df c1 = Return label ->
   find_best_talk_time df tzdb now c1 c2 w1 s1 w2 s2
   = Raise (UnknownTimeZoneError label)) /\
  (forall z1 tz1,
      get_timezone df c1 = Return z1 -> tzdb z1 = Some tz1 ->
      first_timezone df c2 = Return label ->
      find_best_talk_time df tzdb now c1 c2 w1 s1 w2 s2
      = Raise (UnknownTimeZoneError label)).
Proof.
  intros Hun Hdb.
  assert (Hget : forall c, first_timezone df c = Return label ->
                           get_timezone df c = Return label).
  { intros c Hc. unfold get_timezone. rewrite Hc. cbn [bind].
    now rewrite (first_startswith_unmapped utc_to_iana label Hun). }
  split.
  - intros H1. unfold find_best_talk_time, pytz_timezone.
    rewrite (Hget c1 H1). cbn [bind]. now rewrite Hdb.
  - intros z1 tz1 Hz1 Htz1 H2. unfold find_best_talk_time, pytz_timezone.
    rewrite Hz1. cbn [bind]. rewrite Htz1. cbn [bind].
    rewrite (Hget c2 H2). cbn [bind]. now rewrite Hdb.
Qed.

Lemma find_best_talk_time_unknown_zone_witness :
  find_best_talk_time sample_countries sample_tz_database sample_now
    "Nepal" "Japan" (7, 23) (7, 23) (7, 23) (7, 23)
  = Raise (UnknownTimeZoneError "UTC+05:45").
Proof.
  apply (proj1 (find_best_talk_time_unknown_zone sample_countries
                  sample_tz_database sample_now "Nepal" "Japan" "UTC+05:45"
                  (7, 23) (7, 23) (7, 23) (7, 23) eq_refl eq_refl)).
  reflexivity.
Defined.

Lemma replace_hour_cases (now : datetime) (h : Z) :
  (valid_hour h /\ replace_hour now h = Return (on_the_hour now h))
  \/ (~ valid_hour h /\ c_int h /\
      replace_hour now h = Raise (ValueError "hour must be in 0..23"))
  \/ (~ valid_hour h /\ ~ c_int h /\ replace_hour now h = Raise OverflowError).
Proof.
  unfold replace_hour, valid_hour, c_int, on_the_hour.
  destruct (Z.leb_spec 0 h); destruct (Z.leb_spec h 23); simpl;
    [left; split; [lia | reflexivity] | | | ];
    (destruct (Z.leb_spec (-2147483648) h);
     destruct (Z.leb_spec h 2147483647); simpl;
     [right; left | right; right | right; right | right; right];
     repeat split; try reflexivity; lia).
Qed.

(** X8: with both countries resolved, the call returns a result exactly
    when the four hours lie in 0..23.  One hour outside that range makes
    [datetime.replace] raise: the [ValueError] of the hour when the four
    hours fit a C [int], and that [ValueError] or [OverflowError] in
    general. *)
Theorem find_best_talk_time_returns_iff_valid_hours
    (df : DataFrame) (tzdb : string -> option tzinfo) (now : datetime)
    (c1 c2 z1 z2 : string) (tz1 tz2 : tzinfo) (w1 s1 w2 s2 : Z * Z) :
  get_timezone df c1 = Return z1 -> tzdb z1 = Some tz1 ->
  get_timezone df c2 = Return z2 -> tzdb z2 = Some tz2 ->
  (valid_window w1 /\ valid_window w2 ->
   exists r, find_best_talk_time df tzdb now c1 c2 w1 s1 w2 s2 = Return r) /\
  (~ (valid_window w1 /\ valid_window w2) ->
   find_best_talk_time df tzdb now c1 c2 w1 s1 w2 s2
   = Raise (ValueError "hour must be in 0..23")
   \/ find_best_talk_time df tzdb now c1 c2 w1 s1 w2 s2 = Raise OverflowError) /\
  (~ (valid_window w1 /\ valid_window w2) ->
   c_int_window w1 /\ c_int_window w2 ->
   find_best_talk_time df tzdb now c1 c2 w1 s1 w2 s2
   = Raise (ValueError "hour must be in 0..23")).
Proof.
  intros Hz1 Htz1 Hz2 Htz2. split; [|split].
  - intros [Hw1 Hw2].
    rewrite (find_best_talk_time_resolved df tzdb now c1 c2 w1 s1 w2 s2
               z1 z2 tz1 tz2 Hz1 Htz1 Hz2 Htz2 Hw1 Hw2).
    eexists. reflexivity.
  - intros Hbad. unfold find_best_talk_time, pytz_timezone.
    rewrite Hz1. cbn [bind]. rewrite Htz1. cbn [bind].
    rewrite Hz2. cbn [bind]. rewrite Htz2. cbn [bind].
    destruct (replace_hour_cases now (fst w1)) as [[V1 ->]|[(_ & _ & ->)|(_ & _ & ->)]];
      [|left; reflexivity|right; reflexivity].
    cbn [bind].
    destruct (replace_hour_cases now (snd w1)) as [[V2 ->]|[(_ & _ & ->)|(_ & _ & ->)]];
      [|left; reflexivity|right; reflexivity].
    cbn [bind].
    destruct (replace_hour_cases now (fst w2)) as [[V3 ->]|[(_ & _ & ->)|(_ & _ & ->)]];
      [|left; reflexivity|right; reflexivity].
    cbn [bind].
    destruct (replace_hour_cases now (snd w2)) as [[V4 ->]|[(_ & _ & ->)|(_ & _ & ->)]];
      [|left; reflexivity|right; reflexivity].
    destruct Hbad. exact (conj (conj V1 V2) (conj V3 V4)).
  - intros Hbad [[C1 C2] [C3 C4]]. unfold find_best_talk_time, pytz_timezone.
    rewrite Hz1. cbn [bind]. rewrite Htz1. cbn [bind].
    rewrite Hz2. cbn [bind]. rewrite Htz2. cbn [bind].
    destruct (replace_hour_cases now (fst w1)) as [[V1 ->]|[(_ & _ & ->)|(_ & N & _)]];
      [|reflexivity|destruct (N C1)].
    cbn [bind].
    destruct (replace_hour_cases now (snd w1)) as [[V2 ->]|[(_ & _ & ->)|(_ & N & _)]];
      [|reflexivity|destruct (N C2)].
    cbn [bind].
    destruct (replace_hour_cases now (fst w2)) as [[V3 ->]|[(_ & _ & ->)|(_ & N & _)]];
      [|reflexivity|destruct (N C3)].
    cbn [bind].
    destruct (replace_hour_cases now (snd w2)) as [[V4 ->]|[(_ & _ & ->)|(_ & N & _)]];
      [|reflexivity|destruct (N C4)].
    destruct Hbad. exact (conj (conj V1 V2) (conj V3 V4)).
Qed.

Lemma find_best_talk_time_returns_iff_valid_hours_witness :
  find_best_talk_time sample_countries sample_tz_database sample_now
    "India" "Japan" (7, 24) (7, 24) (7, 23) (7, 23)
  = Raise (ValueError "hour must be in 0..23") /\
  find_best_talk_time sample_countries sample_tz_database sample_now
    "India" "Japan" (7, 23) (7, 23) (2147483648, 23) (2147483648, 23)
  = Raise OverflowError.
Proof.
  split.
  - apply (proj2 (proj2 (find_best_talk_time_returns_iff_valid_hours
                    sample_countries sample_tz_database sample_now "India" "Japan"
                    "Asia/Kolkata" "Asia/Tokyo"
                    (fixed_offset 19800) (fixed_offset 32400)
                    (7, 24) (7, 24) (7, 23) (7, 23)
                    eq_refl eq_refl eq_refl eq_refl)));
      vm_compute; intuition discriminate.
  - destruct (proj1 (proj2 (find_best_talk_time_returns_iff_valid_hours
                    sample_countries sample_tz_database sample_now "India" "Japan"
                    "Asia/Kolkata" "Asia/Tokyo"
                    (fixed_offset 19800) (fixed_offset 32400)
                    (7, 23) (7, 23) (2147483648, 23) (2147483648, 23)
                    eq_refl eq_refl eq_refl eq_refl))
                ltac:(vm_compute; intuition discriminate)) as [H|H].
    + vm_compute in H. discriminate H.
    + exact H.
Defined.

(** X9: only the date of [datetime.now()] counts.  Two calls made at
    different times of the same day give the same outcome. *)
Theorem find_best_talk_time_same_day
    (df : DataFrame) (tzdb : string -> option tzinfo) (now now' : datetime)
    (c1 c2 : string) (w1 s1 w2 s2 : Z * Z) :
  ordinal now = ordinal now' ->
  find_best_talk_time df tzdb now c1 c2 w1 s1 w2 s2
  = find_best_talk_time df tzdb now' c1 c2 w1 s1 w2 s2.
Proof.
  intros Hday. unfold find_best_talk_time, replace_hour. now rewrite Hday.
Qed.

Lemma find_best_talk_time_same_day_witness :
  find_best_talk_time sample_countries sample_tz_database sample_now
    "India" "Japan" (7, 23) (7, 23) (7, 23) (7, 23)
  = find_best_talk_time sample_countries sample_tz_database
      (mkdatetime 738960 23 59 59 999999)
      "India" "Japan" (7, 23) (7, 23) (7, 23) (7, 23).
Proof.
  apply (find_best_talk_time_same_day sample_countries sample_tz_database
           sample_now (mkdatetime 738960 23 59 59 999999)).
  reflexivity.
Defined.

Lemma min_le_max_of_le (a b c d : Z) :
  b <= a \/ d <= c -> Z.min b d <= Z.max a c.
Proof. lia. Qed.

Lemma to_seconds_on_the_hour (now : datetime) (h : Z) :
  to_seconds (on_the_hour now h) = ordinal now * 86400 + h * 3600.
Proof. unfold to_seconds, on_the_hour. cbn [ordinal hour minute second]. lia. Qed.

Lemma scale_le (a b : Z) : a <= b -> a * 1000000 <= b * 1000000.
Proof. lia. Qed.

Lemma wake_utc_reversed (tz : tzinfo) (now : datetime) (w : Z * Z) :
  snd w <= fst w ->
  localize_utcoffset tz (on_the_hour now (fst w))
  = localize_utcoffset tz (on_the_hour now (snd w)) ->
  timestamp (wake_utc tz now (snd w)) <= timestamp (wake_utc tz now (fst w)).
Proof.
  intros Hle Hoff. rewrite !timestamp_wake_utc. apply scale_le.
  unfold wake_seconds. fold (on_the_hour now (fst w)) (on_the_hour now (snd w)).
  rewrite Hoff, !to_seconds_on_the_hour.
  generalize (localize_utcoffset tz (on_the_hour now (snd w))). intros o. lia.
Qed.

(** X10: a window that does not end after it starts never overlaps.
    With both countries resolved and valid hours, if one person's
    [sleep_hour] is not after the [wake_hour] (a window meant to cross
    midnight, or an empty one) and that person's zone has the same offset
    at both hours, the call returns the [error] result, whatever the
    other person's window is. *)
Theorem find_best_talk_time_reversed_window
    (df : DataFrame) (tzdb : string -> option tzinfo) (now : datetime)
    (c1 c2 z1 z2 : string) (tz1 tz2 : tzinfo) (w1 s1 w2 s2 : Z * Z) :
  get_timezone df c1 = Return z1 -> tzdb z1 = Some tz1 ->
  get_timezone df c2 = Return z2 -> tzdb z2 = Some tz2 ->
  valid_window w1 -> valid_window w2 ->
  (snd w1 <= fst w1 /\
   localize_utcoffset tz1 (on_the_hour now (fst w1))
   = localize_utcoffset tz1 (on_the_hour now (snd w1)))
  \/ (snd w2 <= fst w2 /\
      localize_utcoffset tz2 (on_the_hour now (fst w2))
      = localize_utcoffset tz2 (on_the_hour now (snd w2))) ->
  find_best_talk_time df tzdb now c1 c2 w1 s1 w2 s2
  = Return (error no_overlap_message).
Proof.
  intros Hz1 Htz1 Hz2 Htz2 Hw1 Hw2 Hrev.
  rewrite (find_best_talk_time_resolved df tzdb now c1 c2 w1 s1 w2 s2
             z1 z2 tz1 tz2 Hz1 Htz1 Hz2 Htz2 Hw1 Hw2).
  assert (Hnot : aware_lt (overlap_start tz1 tz2 now w1 w2)
                          (overlap_end tz1 tz2 now w1 w2) = false).
  { apply aware_lt_false. unfold overlap_start, overlap_end.
    rewrite timestamp_py_max, timestamp_py_min. apply min_le_max_of_le.
    destruct Hrev as [[Hle Hoff]|[Hle Hoff]]; [left|right];
      now apply wake_utc_reversed. }
  now rewrite Hnot.
Qed.

Lemma find_best_talk_time_reversed_window_witness :
  find_best_talk_time sample_countries sample_tz_database sample_now
    "India" "Japan" (22, 6) (22, 6) (0, 23) (0, 23)
  = Return (error no_overlap_message).
Proof.
  apply (find_best_talk_time_reversed_window sample_countries
           sample_tz_database sample_now "India" "Japan"
           "Asia/Kolkata" "Asia/Tokyo" (fixed_offset 19800) (fixed_offset 32400)
           (22, 6) (22, 6) (0, 23) (0, 23) eq_refl eq_refl eq_refl eq_refl);
    [vm_compute; intuition discriminate | vm_compute; intuition discriminate |].
  left. split; [discriminate | reflexivity].
Defined.

Lemma wake_utc_fixed_offset (o : Z) (now : datetime) (h : Z) :
  wake_utc (fixed_offset o) now h = day_instant (ordinal now) (h * 3600 - o).
Proof.
  rewrite wake_utc_of_seconds. unfold day_instant, wake_seconds.
  fold (on_the_hour now h). rewrite to_seconds_on_the_hour.
  cbn [fixed_offset localize_utcoffset].
  now rewrite Z.add_sub_assoc.
Qed.

Lemma timestamp_day_instant (d x : Z) :
  timestamp (day_instant d x) = (d * 86400 + x) * 1000000.
Proof.
  unfold timestamp, day_instant. cbn [wall utcoffset].
  rewrite to_seconds_of_seconds. cbn [of_seconds microsecond]. lia.
Qed.

Lemma aware_lt_day_instant (d x y : Z) :
  aware_lt (day_instant d x) (day_instant d y) = (x <? y).
Proof.
  unfold aware_lt. rewrite !timestamp_day_instant.
  destruct (Z.ltb_spec x y);
    destruct (Z.ltb_spec ((d * 86400 + x) * 1000000) ((d * 86400 + y) * 1000000));
    try reflexivity; lia.
Qed.

Lemma py_max_day_instant (d x y : Z) :
  py_max (day_instant d x) (day_instant d y)
  = day_instant d (if x <? y then y else x).
Proof. unfold py_max. rewrite aware_lt_day_instant. now destruct (x <? y). Qed.

Lemma py_min_day_instant (d x y : Z) :
  py_min (day_instant d x) (day_instant d y)
  = day_instant d (if y <? x then y else x).
Proof. unfold py_min. rewrite aware_lt_day_instant. now destruct (y <? x). Qed.

Lemma strftime_HM_day (d x us o : Z) :
  strftime_HM (mkaware (of_seconds (d * 86400 + x) us) o) = clock x.
Proof.
  unfold strftime_HM, clock, of_seconds. cbn [wall hour minute].
  replace ((d * 86400 + x) mod 86400) with (x mod 86400) by clock_arith.
  replace ((d * 86400 + x) mod 3600) with (x mod 3600) by clock_arith.
  reflexivity.
Qed.

Lemma astimezone_day_instant (d x o : Z) :
  astimezone (day_instant d x) (fixed_offset o)
  = mkaware (of_seconds (d * 86400 + (x + o)) 0) o.
Proof.
  unfold astimezone, day_instant.
  cbn [wall utcoffset fixed_offset fromutc_utcoffset].
  rewrite plus_seconds_plus_seconds. unfold plus_seconds.
  rewrite to_seconds_of_seconds. cbn [of_seconds microsecond].
  replace (d * 86400 + x + (- 0 + o)) with (d * 86400 + (x + o)) by lia.
  reflexivity.
Qed.

Lemma time_range_day (d x y us us' o o' : Z) :
  time_range (mkaware (of_seconds (d * 86400 + x) us) o)
             (mkaware (of_seconds (d * 86400 + y) us') o')
  = clock_range x y.
Proof. unfold time_range, clock_range. now rewrite !strftime_HM_day. Qed.

(** The call for two zones of fixed offsets, in closed form. *)
Lemma fixed_offsets_call
    (df : DataFrame) (tzdb : string -> option tzinfo) (now : datetime)
    (c1 c2 z1 z2 : string) (o1 o2 : Z) (w1 s1 w2 s2 : Z * Z) :
  get_timezone df c1 = Return z1 -> tzdb z1 = Some (fixed_offset o1) ->
  get_timezone df c2 = Return z2 -> tzdb z2 = Some (fixed_offset o2) ->
  valid_window w1 -> valid_window w2 ->
  find_best_talk_time df tzdb now c1 c2 w1 s1 w2 s2
  = Return (fixed_offsets_result o1 o2 w1 w2).
Proof.
  intros Hz1 Htz1 Hz2 Htz2 Hw1 Hw2.
  rewrite (find_best_talk_time_resolved df tzdb now c1 c2 w1 s1 w2 s2
             z1 z2 _ _ Hz1 Htz1 Hz2 Htz2 Hw1 Hw2).
  unfold overlap_start, overlap_end. rewrite !wake_utc_fixed_offset.
  rewrite py_max_day_instant, py_min_day_instant, aware_lt_day_instant.
  unfold fixed_offsets_result. cbv zeta.
  destruct (_ <? _); [|reflexivity].
  rewrite !astimezone_day_instant. unfold day_instant.
  now rewrite !time_range_day.
Qed.

(** X11: for two zones of fixed offsets the outcome is a function of
    the four hours and the two offsets alone.  With both countries
    resolved and valid hours, the call returns [fixed_offsets_result],
    which compares the window ends as seconds counted from one UTC
    midnight and prints them modulo one day; so the outcome is the same
    on every date. *)
Theorem find_best_talk_time_fixed_offsets
    (df : DataFrame) (tzdb : string -> option tzinfo) (now : datetime)
    (c1 c2 z1 z2 : string) (o1 o2 : Z) (w1 s1 w2 s2 : Z * Z) :
  get_timezone df c1 = Return z1 -> tzdb z1 = Some (fixed_offset o1) ->
  get_timezone df c2 = Return z2 -> tzdb z2 = Some (fixed_offset o2) ->
  valid_window w1 -> valid_window w2 ->
  find_best_talk_time df tzdb now c1 c2 w1 s1 w2 s2
  = Return (fixed_offsets_result o1 o2 w1 w2)
  /\ forall now',
       find_best_talk_time df tzdb now' c1 c2 w1 s1 w2 s2
       = find_best_talk_time df tzdb now c1 c2 w1 s1 w2 s2.
Proof.
  intros Hz1 Htz1 Hz2 Htz2 Hw1 Hw2.
  split.
  - now apply (fixed_offsets_call df tzdb now c1 c2 z1 z2).
  - intros now'.
    rewrite (fixed_offsets_call df tzdb now c1 c2 z1 z2 o1 o2) by assumption.
    now apply (fixed_offsets_call df tzdb now' c1 c2 z1 z2).
Qed.

Lemma find_best_talk_time_fixed_offsets_witness :
  find_best_talk_time sample_countries sample_tz_database sample_now
    "India" "Japan" (7, 23) (7, 23) (7, 23) (7, 23)
  = Return (fixed_offsets_result 19800 32400 (7, 23) (7, 23)) /\
  fixed_offsets_result 19800 32400 (7, 23) (7, 23)
  = success "07:00 to 19:30" "10:30 to 23:00" "01:30 to 14:00".
Proof.
  split; [|reflexivity].
  apply (proj1 (find_best_talk_time_fixed_offsets sample_countries
                  sample_tz_database sample_now "India" "Japan"
                  "Asia/Kolkata" "Asia/Tokyo" 19800 32400
                  (7, 23) (7, 23) (7, 23) (7, 23)
                  eq_refl eq_refl eq_refl eq_refl
                  ltac:(vm_compute; intuition discriminate)
                  ltac:(vm_compute; intuition discriminate))).
Defined.

Lemma clock_on_the_hour (h o : Z) :
  valid_hour h -> clock (h * 3600 - o + o) = two_digits h ++ ":00".
Proof.
  intros [H0 H23]. unfold clock.
  replace (h * 3600 - o + o) with (h * 3600) by lia.
  replace ((h * 3600) mod 86400 / 3600) with h by clock_arith.
  replace ((h * 3600) mod 3600 / 60) with 0 by clock_arith.
  reflexivity.
Qed.

Lemma later_start (a1 a2 o : Z) :
  (if a1 * 3600 - o <? a2 * 3600 - o then a2 * 3600 - o else a1 * 3600 - o)
  = Z.max a1 a2 * 3600 - o.
Proof. destruct (Z.ltb_spec (a1 * 3600 - o) (a2 * 3600 - o)); lia. Qed.

Lemma earlier_end (b1 b2 o : Z) :
  (if b2 * 3600 - o <? b1 * 3600 - o then b2 * 3600 - o else b1 * 3600 - o)
  = Z.min b1 b2 * 3600 - o.
Proof. destruct (Z.ltb_spec (b2 * 3600 - o) (b1 * 3600 - o)); lia. Qed.

Lemma scaled_lt (a b o : Z) : (a * 3600 - o <? b * 3600 - o) = (a <? b).
Proof.
  destruct (Z.ltb_spec a b); destruct (Z.ltb_spec (a * 3600 - o) (b * 3600 - o));
    try reflexivity; lia.
Qed.

(** X16: two persons in zones of one and the same fixed offset get the
    intersection of their hour ranges.  With valid hours, when the later
    [wake_hour] is before the earlier [sleep_hour] both local ranges are
    "later wake_hour:00 to earlier sleep_hour:00"; otherwise the call
    returns the [error] result. *)
Theorem find_best_talk_time_same_offset
    (df : DataFrame) (tzdb : string -> option tzinfo) (now : datetime)
    (c1 c2 z1 z2 : string) (o : Z) (w1 s1 w2 s2 : Z * Z) :
  get_timezone df c1 = Return z1 -> tzdb z1 = Some (fixed_offset o) ->
  get_timezone df c2 = Return z2 -> tzdb z2 = Some (fixed_offset o) ->
  valid_window w1 -> valid_window w2 ->
  let wake := Z.max (fst w1) (fst w2) in
  let sleep := Z.min (snd w1) (snd w2) in
  (wake < sleep ->
   find_best_talk_time df tzdb now c1 c2 w1 s1 w2 s2
   = Return (success (window_text (wake, sleep)) (window_text (wake, sleep))
               (clock_range (wake * 3600 - o) (sleep * 3600 - o)))) /\
  (sleep <= wake ->
   find_best_talk_time df tzdb now c1 c2 w1 s1 w2 s2
   = Return (error no_overlap_message)).
Proof.
  intros Hz1 Htz1 Hz2 Htz2 Hw1 Hw2 wake sleep.
  rewrite (fixed_offsets_call df tzdb now c1 c2 z1 z2 o o w1 s1 w2 s2
             Hz1 Htz1 Hz2 Htz2 Hw1 Hw2).
  unfold fixed_offsets_result. cbv zeta.
  rewrite later_start, earlier_end, scaled_lt. fold wake sleep.
  assert (Hwake : valid_hour wake)
    by (unfold wake, valid_hour; destruct Hw1 as [[? ?] _], Hw2 as [[? ?] _]; lia).
  assert (Hsleep : valid_hour sleep)
    by (unfold sleep, valid_hour; destruct Hw1 as [_ [? ?]], Hw2 as [_ [? ?]]; lia).
  split; intros H.
  - apply Z.ltb_lt in H. rewrite H. unfold clock_range.
    rewrite (clock_on_the_hour wake o Hwake), (clock_on_the_hour sleep o Hsleep).
    unfold window_text, two_digits. cbn [fst snd append]. reflexivity.
  - apply Z.ltb_ge in H. now rewrite H.
Qed.

Lemma find_best_talk_time_same_offset_witness :
  find_best_talk_time sample_countries sample_tz_database sample_now
    "India" "Sri Lanka" (6, 22) (6, 22) (9, 23) (9, 23)
  = Return (success "09:00 to 22:00" "09:00 to 22:00" "03:30 to 16:30").
Proof.
  refine (proj1
    (find_best_talk_time_same_offset sample_countries sample_tz_database
       sample_now "India" "Sri Lanka" "Asia/Kolkata" "Asia/Kolkata" 19800
       (6, 22) (6, 22) (9, 23) (9, 23)
       eq_refl eq_refl eq_refl eq_refl _ _) _);
    vm_compute; intuition discriminate.
Defined.

(* ================================================================== *)
(** ** Properties of the page *)

Lemma widgets_in_range_valid (ui : session) :
  widgets_in_range ui = true <-> valid_session ui.
Proof.
  unfold widgets_in_range, valid_session, valid_window, valid_hour.
  cbn [fst snd]. rewrite !andb_true_iff, !Z.leb_le. tauto.
Qed.

(** A call the button makes raises only when the widgets are in range. *)
Lemma pressed_call_in_range
    (df : DataFrame) (tzdb : string -> option tzinfo) (now : datetime)
    (c1 c2 : string) (ui : session) (e : exception) :
  pressed_call df tzdb now c1 c2 ui = Raise e -> widgets_in_range ui = true.
Proof.
  unfold pressed_call. destruct (widgets_in_range ui); [reflexivity | discriminate].
Qed.

(** A press of the button, by what [find_best_talk_time] does. *)
Lemma main_pressed
    (df : DataFrame) (tzdb : string -> option tzinfo) (now : datetime)
    (globe heart : string) (ui : session)
    (names country_list : list cell) (c1 c2 : string) :
  df_getitem df "name" = Return names ->
  sorted names = Return country_list ->
  widgets_in_range ui = true ->
  find_clicked ui = true ->
  selected country_list (country1_index ui) = Return c1 ->
  selected country_list (country2_index ui) = Return c2 ->
  main df tzdb now globe heart ui =
  match pressed_call df tzdb now c1 c2 ui with
  | Return r =>
      ((form_elements globe country_list ++ result_elements c1 c2 r
          ++ footer_elements heart)%list, Return tt)
  | Raise (ValueError msg) =>
      ((form_elements globe country_list ++ [st_error ("Error: " ++ msg)]
          ++ footer_elements heart)%list, Return tt)
  | Raise e => (form_elements globe country_list, Raise e)
  | OutOfModel => (form_elements globe country_list, OutOfModel)
  end.
Proof.
  intros Hnames Hsorted Hrange Hclick H1 H2.
  unfold main, pressed_call, person_column, number_input, show, call.
  rewrite Hrange. unfold widgets_in_range in Hrange.
  apply andb_true_iff in Hrange as [Hrange Hs2].
  apply andb_true_iff in Hrange as [Hrange Hw2].
  apply andb_true_iff in Hrange as [Hw1 Hs1].
  rewrite Hnames. cbn [and_then]. rewrite Hsorted. cbn [and_then].
  rewrite Hw1. cbn [and_then]. rewrite Hs1. cbn [and_then].
  rewrite Hw2. cbn [and_then]. rewrite Hs2. cbn [and_then].
  rewrite Hclick, H1. cbn [and_then]. rewrite H2. cbn [and_then].
  destruct (find_best_talk_time _ _ _ _ _ _ _ _ _)
    as [[a b u|m]|[msg|key| | | |zone| | ]|]; reflexivity.
Qed.

(** X12: the form needs the [name] column and a list of names that can
    be sorted.  On a table without the [name] column (the table a failed
    load leaves) every run stops with [KeyError] after the title and the
    introduction; on a table that has both named records and records
    without a name, [sorted] raises [TypeError] at the same place. *)
Theorem main_without_names
    (df : DataFrame) (tzdb : string -> option tzinfo) (now : datetime)
    (globe heart : string) (ui : session) :
  (get_loc "name" (columns df) = None ->
   main df tzdb now globe heart ui
   = ([ st_title (globe ++ " Time Zone Meeting Planner");
        st_write "Find the best time to talk with someone in a different time zone!" ],
      Raise (KeyError "name"))) /\
  (forall names s,
      df_getitem df "name" = Return names ->
      In (Str s) names -> In NaN names ->
      main df tzdb now globe heart ui
      = ([ st_title (globe ++ " Time Zone Meeting Planner");
           st_write "Find the best time to talk with someone in a different time zone!" ],
         Raise TypeError)).
Proof.
  split.
  - intros Hloc. unfold main, show, call, df_getitem. rewrite Hloc. reflexivity.
  - intros names s Hnames Hs Hnan.
    assert (Hsorted : sorted names = Raise TypeError).
    { unfold sorted.
      assert (forallb is_nan names = false) as ->.
      { apply not_true_is_false. intros H. rewrite forallb_forall in H.
        discriminate (H (Str s) Hs). }
      assert (texts names = None) as ->; [|reflexivity].
      clear Hs Hnames. induction names as [|[t|] names IH]; simpl.
      - destruct Hnan.
      - destruct Hnan as [E|Hnan]; [discriminate E|]. now rewrite (IH Hnan).
      - reflexivity. }
    unfold main, show, call. rewrite Hnames. cbn [and_then].
    rewrite Hsorted. reflexivity.
Qed.

Lemma main_without_names_witness :
  main (load_country_data (inr FileNotFoundError)) sample_tz_database sample_now
       "*" "<3" (mksession 0 7 23 0 7 23 false)
  = ([ st_title "* Time Zone Meeting Planner";
       st_write "Find the best time to talk with someone in a different time zone!" ],
     Raise (KeyError "name")).
Proof.
  exact (proj1 (main_without_names (load_country_data (inr FileNotFoundError))
                  sample_tz_database sample_now "*" "<3"
                  (mksession 0 7 23 0 7 23 false)) eq_refl).
Defined.

(** X13: a [ValueError] of the pressed call is caught.  The page shows
    the form, then one error box with [Error: ] and the message of the
    exception, then the footer, and the run ends normally.  This is what
    happens for a country picked from the list when no record of the
    table has a [timezones] text. *)
Theorem main_catches_ValueError
    (df : DataFrame) (tzdb : string -> option tzinfo) (now : datetime)
    (globe heart : string) (ui : session)
    (names country_list : list cell) (c1 c2 msg : string) :
  df_getitem df "name" = Return names ->
  sorted names = Return country_list ->
  find_clicked ui = true ->
  selected country_list (country1_index ui) = Return c1 ->
  selected country_list (country2_index ui) = Return c2 ->
  pressed_call df tzdb now c1 c2 ui = Raise (ValueError msg) ->
  main df tzdb now globe heart ui
  = ((form_elements globe country_list ++ [st_error ("Error: " ++ msg)]
        ++ footer_elements heart)%list, Return tt).
Proof.
  intros Hnames Hsorted Hclick H1 H2 Hcall.
  rewrite (main_pressed df tzdb now globe heart ui names country_list c1 c2
             Hnames Hsorted (pressed_call_in_range _ _ _ _ _ _ _ Hcall)
             Hclick H1 H2).
  now rewrite Hcall.
Qed.

(** X14: no other exception of the pressed call is caught.  The run
    stops with that exception right after the button: no result, no
    error box and no footer. *)
Theorem main_lets_other_exceptions_escape
    (df : DataFrame) (tzdb : string -> option tzinfo) (now : datetime)
    (globe heart : string) (ui : session)
    (names country_list : list cell) (c1 c2 : string) (e : exception) :
  df_getitem df "name" = Return names ->
  sorted names = Return country_list ->
  find_clicked ui = true ->
  selected country_list (country1_index ui) = Return c1 ->
  selected country_list (country2_index ui) = Return c2 ->
  pressed_call df tzdb now c1 c2 ui = Raise e ->
  (forall msg, e <> ValueError msg) ->
  main df tzdb now globe heart ui = (form_elements globe country_list, Raise e).
Proof.
  intros Hnames Hsorted Hclick H1 H2 Hcall Hother.
  rewrite (main_pressed df tzdb now globe heart ui names country_list c1 c2
             Hnames Hsorted (pressed_call_in_range _ _ _ _ _ _ _ Hcall)
             Hclick H1 H2).
  rewrite Hcall. destruct e; try reflexivity.
  destruct (Hother msg eq_refl).
Qed.

Lemma main_catches_ValueError_witness :
  main (mkDataFrame ["name"; "timezones"] [[Str "Japan"; NaN]])
       sample_tz_database sample_now "*" "<3"
       (mksession 0 7 23 0 7 23 true)
  = ((form_elements "*" [Str "Japan"]
      ++ [st_error "Error: source code string cannot contain null bytes"]
      ++ footer_elements "<3")%list,
     Return tt).
Proof.
  exact (main_catches_ValueError
           (mkDataFrame ["name"; "timezones"] [[Str "Japan"; NaN]])
           sample_tz_database sample_now
           "*" "<3" (mksession 0 7 23 0 7 23 true)
           [Str "Japan"] [Str "Japan"]
           "Japan" "Japan" "source code string cannot contain null bytes"
           eq_refl eq_refl eq_refl eq_refl eq_refl eq_refl).
Defined.

Lemma main_lets_other_exceptions_escape_witness :
  main sample_countries sample_tz_database sample_now "*" "<3"
       (mksession 3 7 23 2 7 23 true)
  = (form_elements "*"
       [Str "Germany"; Str "India"; Str "Japan"; Str "Nepal"; Str "Sri Lanka"],
     Raise (UnknownTimeZoneError "UTC+05:45")).
Proof.
  apply (main_lets_other_exceptions_escape sample_countries sample_tz_database
           sample_now "*" "<3" (mksession 3 7 23 2 7 23 true)
           [Str "India"; Str "Japan"; Str "Nepal"; Str "Sri Lanka"; Str "Germany"]
           [Str "Germany"; Str "India"; Str "Japan"; Str "Nepal"; Str "Sri Lanka"]
           "Nepal" "Japan" (UnknownTimeZoneError "UTC+05:45")
           eq_refl eq_refl eq_refl eq_refl eq_refl eq_refl).
  intros msg H. discriminate H.
Defined.

Lemma In_insert (s x : string) (l : list string) :
  In s (insert x l) <-> s = x \/ In s l.
Proof.
  induction l as [|t l IH]; simpl.
  - intuition.
  - destruct (String.leb x t); simpl; [intuition|].
    rewrite IH. intuition.
Qed.

Lemma In_sort_strings (s : string) (l : list string) :
  In s (sort_strings l) <-> In s l.
Proof.
  induction l as [|x l IH]; simpl; [reflexivity|].
  rewrite In_insert, IH. intuition.
Qed.

Lemma texts_In (cells : list cell) (l : list string) (s : string) :
  texts cells = Some l -> In s l -> In (Str s) cells.
Proof.
  revert l. induction cells as [|[t|] cells IH]; simpl; intros l H Hin.
  - injection H as <-. destruct Hin.
  - destruct (texts cells) as [l'|]; [|discriminate].
    injection H as <-. destruct Hin as [->|Hin]; [now left|].
    right. exact (IH l' eq_refl Hin).
  - discriminate.
Qed.

(** The names offered in the list are names of the table. *)
Lemma sorted_In (names country_list : list cell) (s : string) :
  sorted names = Return country_list ->
  In (Str s) country_list -> In (Str s) names.
Proof.
  unfold sorted. destruct (forallb is_nan names).
  - intros H. now injection H as <-.
  - destruct (texts names) as [l|] eqn:Hl; [|discriminate].
    intros H. injection H as <-. intros Hin.
    apply in_map_iff in Hin as (t & E & Hin). injection E as ->.
    apply (texts_In names l s Hl). now apply In_sort_strings.
Qed.

Lemma selected_In (options : list cell) (index : nat) (s : string) :
  selected options index = Return s -> In (Str s) options.
Proof.
  unfold selected. destruct (nth_error options index) as [[t|]|] eqn:E;
    try discriminate.
  intros H. injection H as ->. exact (nth_error_In _ _ E).
Qed.

(** Looking up a stored plain-text name does not end in a [ValueError]
    of the model when the [timezones] column is not a [float64] column. *)
Lemma stored_name_no_ValueError
    (df : DataFrame) (names : list cell) (s msg : string) :
  df_getitem df "name" = Return names ->
  In (Str s) names ->
  plain_text s = true ->
  float64_column df "timezones" = false ->
  get_timezone df s <> Raise (ValueError msg).
Proof.
  intros Hnames Hin Hs Hobj H.
  pose proof (float64_with_text names s Hin) as Hcol.
  rewrite <- (float64_column_name df names Hnames) in Hcol.
  unfold df_getitem in Hnames.
  destruct (get_loc "name" (columns df)) as [i|] eqn:Hi; [|discriminate].
  injection Hnames as <-.
  destruct (stored_name_is_selected df i s Hi Hin) as (r & rs & Hsel).
  rewrite (get_timezone_plain df s i Hi Hcol Hs), Hsel in H.
  apply zone_of_record_ValueError in H as [H _]. congruence.
Qed.

(** With two stored plain-text names, a [timezones] column that is not
    a [float64] column and valid hours, the call does not end in a
    [ValueError] of the model. *)
Lemma find_best_talk_time_no_ValueError
    (df : DataFrame) (tzdb : string -> option tzinfo) (now : datetime)
    (names : list cell) (c1 c2 msg : string) (w1 s1 w2 s2 : Z * Z) :
  df_getitem df "name" = Return names ->
  In (Str c1) names -> In (Str c2) names ->
  plain_text c1 = true -> plain_text c2 = true ->
  float64_column df "timezones" = false ->
  valid_window w1 -> valid_window w2 ->
  find_best_talk_time df tzdb now c1 c2 w1 s1 w2 s2 <> Raise (ValueError msg).
Proof.
  intros Hnames Hin1 Hin2 Hp1 Hp2 Hobj [Hw1 Hs1] [Hw2 Hs2].
  pose proof (stored_name_no_ValueError df names c1 msg Hnames Hin1 Hp1 Hobj) as Hf1.
  pose proof (stored_name_no_ValueError df names c2 msg Hnames Hin2 Hp2 Hobj) as Hf2.
  unfold find_best_talk_time, pytz_timezone.
  destruct (get_timezone df c1) as [z1|e1|]; cbn [bind];
    [|congruence|discriminate].
  destruct (tzdb z1) as [tz1|]; cbn [bind]; [|discriminate].
  destruct (get_timezone df c2) as [z2|e2|]; cbn [bind];
    [|congruence|discriminate].
  destruct (tzdb z2) as [tz2|]; cbn [bind]; [|discriminate].
  rewrite !replace_hour_valid by assumption. cbn [bind].
  destruct (aware_lt _ _); discriminate.
Qed.

(** X15: the [except ValueError] branch is never taken for names picked
    from the list that have no regular-expression operator, unless the
    [timezones] column is a [float64] column (every record lacks its
    [timezones]).  On any other table, with the four numbers
    in their range, a press of the button ends in one of three ways: a
    result is shown (the overlap or the advice) and the page is
    complete; or an exception that is not a [ValueError] stops the run
    after the button; or the run leaves what is modelled. *)
Theorem main_never_catches_for_plain_names
    (df : DataFrame) (tzdb : string -> option tzinfo) (now : datetime)
    (globe heart : string) (ui : session)
    (names country_list : list cell) (c1 c2 : string) :
  df_getitem df "name" = Return names ->
  sorted names = Return country_list ->
  find_clicked ui = true ->
  selected country_list (country1_index ui) = Return c1 ->
  selected country_list (country2_index ui) = Return c2 ->
  plain_text c1 = true -> plain_text c2 = true ->
  valid_session ui ->
  float64_column df "timezones" = false ->
  (exists r,
      pressed_call df tzdb now c1 c2 ui = Return r /\
      main df tzdb now globe heart ui
      = ((form_elements globe country_list ++ result_elements c1 c2 r
            ++ footer_elements heart)%list, Return tt))
  \/ (exists e,
         pressed_call df tzdb now c1 c2 ui = Raise e /\
         (forall msg, e <> ValueError msg) /\
         main df tzdb now globe heart ui
         = (form_elements globe country_list, Raise e))
  \/ (pressed_call df tzdb now c1 c2 ui = OutOfModel /\
      main df tzdb now globe heart ui
      = (form_elements globe country_list, OutOfModel)).
Proof.
  intros Hnames Hsorted Hclick H1 H2 Hp1 Hp2 Hvalid Hobj.
  pose proof (proj2 (widgets_in_range_valid ui) Hvalid) as Hrange.
  destruct Hvalid as [Hv1 Hv2].
  pose proof (sorted_In names country_list c1 Hsorted
                (selected_In _ _ _ H1)) as Hin1.
  pose proof (sorted_In names country_list c2 Hsorted
                (selected_In _ _ _ H2)) as Hin2.
  assert (Hno : forall msg,
             pressed_call df tzdb now c1 c2 ui <> Raise (ValueError msg)).
  { intros msg. unfold pressed_call. rewrite Hrange.
    now apply (find_best_talk_time_no_ValueError df tzdb now names). }
  rewrite (main_pressed df tzdb now globe heart ui names country_list c1 c2
             Hnames Hsorted Hrange Hclick H1 H2).
  destruct (pressed_call df tzdb now c1 c2 ui) as [r|e|].
  - left. exists r. auto.
  - right. left. exists e. split; [reflexivity|].
    assert (He : forall msg, e <> ValueError msg)
      by (intros msg E; apply (Hno msg); now rewrite E).
    split; [exact He|].
    destruct e; try reflexivity. destruct (He msg eq_refl).
  - right. right. auto.
Qed.

Lemma main_never_catches_for_plain_names_witness :
  exists r,
    pressed_call sample_countries sample_tz_database sample_now
      "India" "Japan" (mksession 1 7 23 2 9 21 true) = Return r /\
    main sample_countries sample_tz_database sample_now "*" "<3"
         (mksession 1 7 23 2 9 21 true)
    = ((form_elements "*"
          [Str "Germany"; Str "India"; Str "Japan"; Str "Nepal"; Str "Sri Lanka"]
        ++ result_elements "India" "Japan" r ++ footer_elements "<3")%list,
       Return tt).
Proof.
  destruct (main_never_catches_for_plain_names sample_countries
              sample_tz_database sample_now "*" "<3"
              (mksession 1 7 23 2 9 21 true)
              [Str "India"; Str "Japan"; Str "Nepal"; Str "Sri Lanka"; Str "Germany"]
              [Str "Germany"; Str "India"; Str "Japan"; Str "Nepal"; Str "Sri Lanka"]
              "India" "Japan"
              eq_refl eq_refl eq_refl eq_refl eq_refl eq_refl eq_refl
              ltac:(vm_compute; intuition discriminate) eq_refl)
    as [H|[(e & He & _)|[Ho _]]].
  - exact H.
  - vm_compute in He. discriminate He.
  - vm_compute in Ho. discriminate Ho.
Defined.
